(** * Seat allocation, waitlist promotion and event status of eventhub

    A shallow embedding of the SQLite-backed core of the application:
    - [app/models.py]                       : [Event], [Registration]
    - [app/participant/routes.py]           : [Participant.register_event],
                                              [Participant.cancel_registration]
    - [app/services/registration_service.py]: [RegistrationService.*]
    - [app/services/waitlist_service.py]    : [WaitlistService.*]
    - [app/services/event_status_service.py]: [EventStatusService.*]
    - [app/services/event_service.py]       : [EventService.update_event]

    The database is a record: the [events] table as a finite map keyed by
    the primary key, the [registrations] table as a list in rowid order
    (so that [.first()] without [ORDER BY] is the first matching row), and
    the counter that hands out the next primary key.  Timestamps
    ([datetime.utcnow()]) are integers passed in as [now].  Side effects
    that never touch the authoritative store (Firestore sync, e-mail, QR
    image files, activity logs) are not modelled. *)

From Stdlib Require Import ZArith Lia Ascii String List.
From stdpp Require Import base gmap list strings sorting.

Open Scope Z_scope.

(* ------------------------------------------------------------------ *)
(** ** Data model (app/models.py) *)

(** [Registration.status]: pending | confirmed | cancelled | waitlist *)
Inductive reg_status := Pending | Confirmed | Cancelled | Waitlist.

(** [Registration.payment_status]: not_required | pending | paid | refunded *)
Inductive payment := NotRequired | PaymentPending | Paid | Refunded.

Definition reg_status_eqb (a b : reg_status) : bool :=
  match a, b with
  | Pending, Pending | Confirmed, Confirmed
  | Cancelled, Cancelled | Waitlist, Waitlist => true
  | _, _ => false
  end.

Lemma reg_status_eqb_spec a b : reg_status_eqb a b = true <-> a = b.
Proof. destruct a, b; simpl; split; congruence. Qed.

Record Event := mkEvent {
  max_participants      : Z;
  available_seats       : Z;
  event_date            : Z;
  registration_deadline : Z;
  is_paid               : bool;
  allow_waitlist        : bool;
  is_active             : bool;
  organizer_id          : Z;
  updated_at            : Z;
  status                : string;          (* 'active' by default *)
  status_reason         : option string;
  postponed_to          : option Z;
  cancelled_at          : option Z
}.

Record Registration := mkRegistration {
  reg_id          : Z;
  user_id         : Z;
  event_id        : Z;
  rstatus         : reg_status;
  payment_status  : payment;
  attended        : bool;
  attendance_time : option Z;
  created_at      : Z
}.

Record DB := mkDB {
  users       : list Z;
  events      : gmap Z Event;
  regs        : list Registration;
  next_reg_id : Z
}.

(** Column writes, one per assignment the source performs. *)
Definition set_available_seats (e : Event) (n : Z) : Event :=
  {| max_participants := max_participants e; available_seats := n;
     event_date := event_date e; registration_deadline := registration_deadline e;
     is_paid := is_paid e; allow_waitlist := allow_waitlist e;
     is_active := is_active e; organizer_id := organizer_id e;
     updated_at := updated_at e; status := status e;
     status_reason := status_reason e; postponed_to := postponed_to e;
     cancelled_at := cancelled_at e |}.

Definition set_rstatus (r : Registration) (s : reg_status) : Registration :=
  {| reg_id := reg_id r; user_id := user_id r; event_id := event_id r;
     rstatus := s; payment_status := payment_status r; attended := attended r;
     attendance_time := attendance_time r; created_at := created_at r |}.

Definition set_events (db : DB) (m : gmap Z Event) : DB :=
  {| users := users db; events := m; regs := regs db; next_reg_id := next_reg_id db |}.

Definition set_regs (db : DB) (rs : list Registration) : DB :=
  {| users := users db; events := events db; regs := rs; next_reg_id := next_reg_id db |}.

(** Write one event row back: [db.session.commit()] of a dirty [Event]. *)
Definition put_event (db : DB) (eid : Z) (e : Event) : DB :=
  set_events db (<[eid := e]> (events db)).

(* ------------------------------------------------------------------ *)
(** ** Queries on the registrations table *)

(** [Registration.query.filter(...).first()]: the first row, in rowid
    order, satisfying the filter, with its position. *)
Fixpoint find_row (p : Registration -> bool) (rs : list Registration)
  : option (nat * Registration) :=
  match rs with
  | [] => None
  | r :: rs' =>
      if p r then Some (0%nat, r)
      else match find_row p rs' with
           | Some (i, x) => Some (S i, x)
           | None => None
           end
  end.

Definition is_confirmed (r : Registration) : bool := reg_status_eqb (rstatus r) Confirmed.
Definition is_waitlist (r : Registration) : bool := reg_status_eqb (rstatus r) Waitlist.

(** Row counted by [filter_by(event_id=eid, status='confirmed').count()]. *)
Definition confirmed_weight (eid : Z) (r : Registration) : Z :=
  if (event_id r =? eid) && is_confirmed r then 1 else 0.

Fixpoint confirmed_count (eid : Z) (rs : list Registration) : Z :=
  match rs with
  | [] => 0
  | r :: rs' => confirmed_weight eid r + confirmed_count eid rs'
  end.

Definition waitlisted_for (eid : Z) (r : Registration) : bool :=
  (event_id r =? eid) && is_waitlist r.

(** Smallest [created_at] among the waitlist rows of the event. *)
Fixpoint min_waitlist_created (eid : Z) (rs : list Registration) : option Z :=
  match rs with
  | [] => None
  | r :: rs' =>
      let m := min_waitlist_created eid rs' in
      if waitlisted_for eid r then
        match m with
        | Some c => Some (Z.min (created_at r) c)
        | None => Some (created_at r)
        end
      else m
  end.

(** [filter_by(event_id=eid, status='waitlist')
     .order_by(Registration.created_at.asc()).first()]:
    a row of least [created_at]; equal timestamps fall back to rowid order. *)
Definition oldest_waitlist (eid : Z) (rs : list Registration)
  : option (nat * Registration) :=
  match min_waitlist_created eid rs with
  | None => None
  | Some m => find_row (fun r => waitlisted_for eid r && (created_at r =? m)) rs
  end.

(* ------------------------------------------------------------------ *)
(** ** app/services/waitlist_service.py *)

Module WaitlistService.

(** [_atomic_promote(event_id)]: fresh read of the event, guard on
    [available_seats <= 0], FIFO choice, then status and seat in one commit.
    Returns the promoted row. *)
Definition atomic_promote (db : DB) (eid : Z) : option Registration * DB :=
  match events db !! eid with
  | None => (None, db)
  | Some ev =>
      if available_seats ev <=? 0 then (None, db)
      else
        match oldest_waitlist eid (regs db) with
        | None => (None, db)
        | Some (i, next_reg) =>
            let promoted := set_rstatus next_reg Confirmed in
            let db1 := set_regs db (<[i := promoted]> (regs db)) in
            (Some promoted,
             put_event db1 eid (set_available_seats ev (available_seats ev - 1)))
        end
  end.

(** [promote_from_waitlist(event_id)]; the commit is taken to succeed, so
    the [except] branch returning [None] is not reached. *)
Definition promote_from_waitlist (db : DB) (eid : Z) : option Registration * DB :=
  atomic_promote db eid.

End WaitlistService.

(** A fresh row appended to the registrations table ([db.session.add]). *)
Definition add_registration (db : DB) (uid eid : Z) (s : reg_status) (p : payment)
    (now : Z) : Registration * DB :=
  let r := {| reg_id := next_reg_id db; user_id := uid; event_id := eid;
              rstatus := s; payment_status := p; attended := false;
              attendance_time := None; created_at := now |} in
  (r, {| users := users db; events := events db; regs := regs db ++ [r];
         next_reg_id := next_reg_id db + 1 |}).

Definition payment_for (e : Event) : payment :=
  if is_paid e then PaymentPending else NotRequired.

(* ------------------------------------------------------------------ *)
(** ** app/participant/routes.py *)

Module Participant.

(** The flash outcome of [register_event]. *)
Inductive RegOutcome :=
| EventNotFound                (* get_or_404 *)
| StatusBlocked                (* 'Cannot register — cancelled or postponed' *)
| ReregisterFull               (* 'Sorry, this event is now full.' *)
| AlreadyRegistered            (* 'You are already registered for this event.' *)
| DeadlinePassed               (* 'Registration deadline has passed.' *)
| EventFull                    (* 'Sorry, this event is full.' *)
| JustBecameFull               (* rowcount == 0 of the conditional UPDATE *)
| Waitlisted (rid : Z)         (* "you've been added to the waitlist!" *)
| Registered (rid : Z).        (* 'Registration successful!' *)

(** [getattr(event, 'status', 'active') or 'active'] in ('cancelled', 'postponed') *)
Definition status_blocks (s : string) : bool :=
  String.eqb s "cancelled" || String.eqb s "postponed".

(** What the request decided from the event and registration rows it read
    at its start (the ORM objects it holds).  The writes are done by
    [register_commit], possibly after other requests have committed. *)
Inductive RegPlan :=
| PlanFail (o : RegOutcome)
| PlanReregister (i : nat) (existing : Registration) (ev : Event)
| PlanWaitlist
| PlanDecrement (ev : Event).

Definition register_read (db : DB) (uid eid now : Z) : RegPlan :=
  match events db !! eid with
  | None => PlanFail EventNotFound
  | Some ev =>
      if status_blocks (status ev) then PlanFail StatusBlocked
      else
        match find_row (fun r => (user_id r =? uid) && (event_id r =? eid)) (regs db) with
        | Some (i, existing) =>
            if reg_status_eqb (rstatus existing) Cancelled then
              if available_seats ev <=? 0 then PlanFail ReregisterFull
              else PlanReregister i existing ev
            else PlanFail AlreadyRegistered
        | None =>
            if now >? registration_deadline ev then PlanFail DeadlinePassed
            else if available_seats ev <=? 0 then
              if allow_waitlist ev then PlanWaitlist else PlanFail EventFull
            else PlanDecrement ev
        end
  end.

Definition register_commit (uid eid now : Z) (plan : RegPlan) (db : DB)
  : RegOutcome * DB :=
  match plan with
  | PlanFail o => (o, db)
  | PlanReregister i existing ev =>
      (* existing.status = 'confirmed'; event.available_seats -= 1 on the
         ORM object read at the start; one commit *)
      let r' := {| reg_id := reg_id existing; user_id := user_id existing;
                   event_id := event_id existing; rstatus := Confirmed;
                   payment_status := payment_for ev; attended := attended existing;
                   attendance_time := attendance_time existing;
                   created_at := created_at existing |} in
      let db1 := set_regs db (<[i := r']> (regs db)) in
      let ev_now := match events db !! eid with Some e => e | None => ev end in
      (Registered (reg_id existing),
       put_event db1 eid (set_available_seats ev_now (available_seats ev - 1)))
  | PlanWaitlist =>
      let (r, db1) := add_registration db uid eid Waitlist NotRequired now in
      (Waitlisted (reg_id r), db1)
  | PlanDecrement ev =>
      (* UPDATE events SET available_seats = available_seats - 1
         WHERE id = :event_id AND available_seats > 0 *)
      match events db !! eid with
      | Some cur =>
          if available_seats cur >? 0 then
            let db1 := put_event db eid (set_available_seats cur (available_seats cur - 1)) in
            let (r, db2) := add_registration db1 uid eid Confirmed (payment_for ev) now in
            (Registered (reg_id r), db2)
          else (JustBecameFull, db)
      | None => (JustBecameFull, db)
      end
  end.

(** [register_event(event_id)] by [current_user] = [uid], run alone. *)
Definition register_event (db : DB) (uid eid now : Z) : RegOutcome * DB :=
  register_commit uid eid now (register_read db uid eid now) db.

Inductive CancelOutcome := CancelNotFound | AccessDenied | CannotCancelAttended
                         | CancelFailed | CancelOk.

(** [cancel_registration(registration_id)]: release the seat of a confirmed
    registration, delete the row, commit, then [promote_from_waitlist]. *)
Definition cancel_registration (db : DB) (uid rid : Z) : CancelOutcome * DB :=
  match find_row (fun r => reg_id r =? rid) (regs db) with
  | None => (CancelNotFound, db)
  | Some (i, registration) =>
      if negb (user_id registration =? uid) then (AccessDenied, db)
      else if attended registration then (CannotCancelAttended, db)
      else
        let eid := event_id registration in
        match events db !! eid with
        | None => (CancelFailed, db)   (* registration.event is None: error before the try *)
        | Some ev =>
            if is_confirmed registration then
              let db1 := put_event db eid (set_available_seats ev (available_seats ev + 1)) in
              let db2 := set_regs db1 (delete i (regs db1)) in
              (CancelOk, snd (WaitlistService.promote_from_waitlist db2 eid))
            else (CancelOk, set_regs db (delete i (regs db)))
        end
  end.

End Participant.

(* ------------------------------------------------------------------ *)
(** ** app/services/registration_service.py *)

Module RegistrationService.

(** [register_for_event(user_id, event_id)]: [(registration, None)] or
    [(None, message)]. *)
Definition register_for_event (db : DB) (uid eid now : Z)
  : (option Registration * option string) * DB :=
  if negb (existsb (Z.eqb uid) (users db)) then ((None, Some "User not found"), db)
  else
    match events db !! eid with
    | None => ((None, Some "Event not found"), db)
    | Some ev =>
        if now >? registration_deadline ev then
          ((None, Some "Registration deadline has passed"), db)
        else
          match find_row (fun r => (user_id r =? uid) && (event_id r =? eid)) (regs db) with
          | Some _ => ((None, Some "Already registered for this event"), db)
          | None =>
              if available_seats ev <=? 0 then ((None, Some "Event is sold out"), db)
              else
                let (r, db1) := add_registration db uid eid Confirmed (payment_for ev) now in
                ((Some r, None),
                 put_event db1 eid (set_available_seats ev (available_seats ev - 1)))
          end
    end.

(** [cancel_registration(user_id, event_id)] with its embedded promotion. *)
Definition cancel_registration (db : DB) (uid eid : Z) : (bool * string) * DB :=
  match find_row (fun r => (user_id r =? uid) && (event_id r =? eid)) (regs db) with
  | None => ((false, "Registration not found"), db)
  | Some (i, registration) =>
      if attended registration then ((false, "Cannot cancel after attendance"), db)
      else
        let was_confirmed := is_confirmed registration in
        match events db !! eid with
        | None =>
            if was_confirmed then ((false, "Cancellation failed"), db)  (* None + 1 raises *)
            else ((true, "Registration cancelled successfully"),
                  set_regs db (delete i (regs db)))
        | Some ev =>
            if was_confirmed then
              let seats := available_seats ev + 1 in
              let '(rs1, seats1) :=
                match oldest_waitlist eid (regs db) with
                | Some (j, waitlist_reg) =>
                    (<[j := set_rstatus waitlist_reg Confirmed]> (regs db), seats - 1)
                | None => (regs db, seats)
                end in
              let db1 := put_event db eid (set_available_seats ev seats1) in
              ((true, "Registration cancelled successfully"),
               set_regs db1 (delete i rs1))
            else ((true, "Registration cancelled successfully"),
                  set_regs db (delete i (regs db)))
        end
  end.

(** [mark_attendance(registration_id)]. *)
Definition mark_attendance (db : DB) (rid now : Z) : (bool * string) * DB :=
  match find_row (fun r => reg_id r =? rid) (regs db) with
  | None => ((false, "Registration not found"), db)
  | Some (i, registration) =>
      if attended registration then ((true, "Already marked as attended"), db)
      else
        let r' := {| reg_id := reg_id registration; user_id := user_id registration;
                     event_id := event_id registration; rstatus := rstatus registration;
                     payment_status := payment_status registration; attended := true;
                     attendance_time := Some now;
                     created_at := created_at registration |} in
        ((true, "Attendance marked successfully"), set_regs db (<[i := r']> (regs db)))
  end.

End RegistrationService.

(* ------------------------------------------------------------------ *)
(** ** app/services/event_service.py *)

Module EventService.

(** Python truthiness of the [max_participants] argument (None or 0 is false). *)
Definition truthy (o : option Z) : option Z :=
  match o with Some n => if n =? 0 then None else Some n | None => None end.

(** [update_event(...)], restricted to the columns of [Event] above:
    capacity, dates, [is_paid], [allow_waitlist] (None leaves it as is). *)
Definition update_event (db : DB) (eid organizer : Z) (new_event_date new_deadline : Z)
    (new_max : option Z) (paid : bool) (waitlist : option bool)
  : option Event * DB :=
  match events db !! eid with
  | None => (None, db)
  | Some ev =>
      if negb (organizer_id ev =? organizer) then (None, db)
      else
        let '(mx, seats) :=
          match truthy new_max with
          | Some m =>
              if negb (m =? max_participants ev) then
                (m, Z.max 0 (m - confirmed_count eid (regs db)))
              else (m, available_seats ev)
          | None => (max_participants ev, available_seats ev)
          end in
        let ev' := {| max_participants := mx; available_seats := seats;
                      event_date := new_event_date; registration_deadline := new_deadline;
                      is_paid := paid;
                      allow_waitlist := match waitlist with Some b => b | None => allow_waitlist ev end;
                      is_active := is_active ev; organizer_id := organizer_id ev;
                      updated_at := updated_at ev; status := status ev;
                      status_reason := status_reason ev; postponed_to := postponed_to ev;
                      cancelled_at := cancelled_at ev |} in
        (Some ev', put_event db eid ev')
  end.

End EventService.

(* ------------------------------------------------------------------ *)
(** ** app/services/event_status_service.py *)

Module EventStatusService.

(** [VALID_STATUSES = {'active', 'cancelled', 'postponed'}] *)
Definition valid_status (s : string) : bool :=
  String.eqb s "active" || String.eqb s "cancelled" || String.eqb s "postponed".

(** [reason or None] *)
Definition reason_or_none (r : option string) : option string :=
  match r with Some "" => None | x => x end.

(** [update_event_status(event_id, new_status, reason, postponed_to)]:
    the request's own part, up to its commit (taken to succeed) and its
    answer.  The background work it then starts is [sync_to_firebase_and_log]
    below; the e-mail blast writes nothing. *)
Definition update_event_status (db : DB) (eid : Z) (new_status : string)
    (reason : option string) (postponed : option Z) (now : Z) : bool * DB :=
  if negb (valid_status new_status) then (false, db)
  else
    match events db !! eid with
    | None => (false, db)
    | Some ev =>
        if String.eqb new_status "postponed" && negb (bool_decide (is_Some postponed))
        then (false, db)
        else
          let '(act, cat, pto, edate) :=
            if String.eqb new_status "cancelled" then
              (false, Some now, postponed_to ev, event_date ev)
            else if String.eqb new_status "postponed" then
              (true, None, postponed, match postponed with Some d => d | None => event_date ev end)
            else (* 'active' *)
              (true, None, postponed_to ev, event_date ev) in
          let ev' := {| max_participants := max_participants ev;
                        available_seats := available_seats ev;
                        event_date := edate; registration_deadline := registration_deadline ev;
                        is_paid := is_paid ev; allow_waitlist := allow_waitlist ev;
                        is_active := act; organizer_id := organizer_id ev;
                        updated_at := now; status := new_status;
                        status_reason := reason_or_none reason; postponed_to := pto;
                        cancelled_at := cat |} in
          (true, put_event db eid ev')
    end.

(** How the background Firestore write of
    [update_event_status_firestore] turns out: [FirestoreOk] when
    [get_firestore()] gives a client and [set] succeeds; [FirestoreDown]
    when no client is available (missing credentials file) or [set]
    raises. *)
Inductive Firestore := FirestoreOk | FirestoreDown.

(** [_sqlite_update_event_status(event_id, status)]:
    [event.is_active = (status == 'active')], committed at time [t].
    [updated_at] has [onupdate=datetime.utcnow]: an UPDATE, and with it a
    new stamp, is issued only when [is_active] actually changes. *)
Definition sqlite_update_event_status (db : DB) (eid : Z) (st : string) (t : Z) : DB :=
  match events db !! eid with
  | None => db
  | Some ev =>
      let act := String.eqb st "active" in
      if Bool.eqb (is_active ev) act then db
      else
        put_event db eid
          {| max_participants := max_participants ev;
             available_seats := available_seats ev;
             event_date := event_date ev; registration_deadline := registration_deadline ev;
             is_paid := is_paid ev; allow_waitlist := allow_waitlist ev;
             is_active := act; organizer_id := organizer_id ev;
             updated_at := t; status := status ev;
             status_reason := status_reason ev; postponed_to := postponed_to ev;
             cancelled_at := cancelled_at ev |}
  end.

(** The thread started by [_sync_to_firebase_and_log]:
    [update_event_status_firestore(event_id, new_status, ...)], which falls
    back to [_sqlite_update_event_status] when Firestore is down, then an
    [ActivityLog] row (a table outside this model). *)
Definition sync_to_firebase_and_log (fs : Firestore) (db : DB) (eid : Z)
    (new_status : string) (t : Z) : DB :=
  match fs with
  | FirestoreOk => db
  | FirestoreDown => sqlite_update_event_status db eid new_status t
  end.

(** [update_event_status] followed by its background sync, run at time
    [t] before any other write: the sync is started only after a
    successful commit. *)
Definition update_event_status_then_sync (fs : Firestore) (db : DB) (eid : Z)
    (new_status : string) (reason : option string) (postponed : option Z)
    (now t : Z) : bool * DB :=
  let '(ok, db1) := update_event_status db eid new_status reason postponed now in
  if ok then (true, sync_to_firebase_and_log fs db1 eid new_status t) else (ok, db1).

End EventStatusService.

(* ------------------------------------------------------------------ *)
(** ** Python [str(int)], [int(str)] and [str.split] on QR payloads

    Python strings are read as sequences of code points U+0000..U+00FF,
    one [ascii] (8-bit) character each. *)

Module Py.

Definition is_digit (c : ascii) : bool :=
  let n := nat_of_ascii c in Nat.leb 48 n && Nat.leb n 57.

Definition digit_val (c : ascii) : Z := Z.of_nat (nat_of_ascii c) - 48.

Definition digit_char (d : Z) : ascii := ascii_of_nat (Z.to_nat (48 + d)).

(** [str.isspace()] on U+0000..U+00FF: \t \n \v \f \r, U+001C..U+001F,
    space, U+0085 and U+00A0; [int()] strips exactly these. *)
Definition is_space (c : ascii) : bool :=
  let n := nat_of_ascii c in
  (Nat.leb 9 n && Nat.leb n 13) || (Nat.leb 28 n && Nat.leb n 32)
  || Nat.eqb n 133 || Nat.eqb n 160.

Fixpoint lstrip (s : string) : string :=
  match s with
  | String c t => if is_space c then lstrip t else s
  | EmptyString => EmptyString
  end.

Fixpoint all_space (s : string) : bool :=
  match s with
  | String c t => is_space c && all_space t
  | EmptyString => true
  end.

(** Decimal digits, with single underscores allowed between two digits;
    returns the value read so far and the unread rest. *)
Fixpoint digit_run (acc : Z) (s : string) : Z * string :=
  match s with
  | String c t =>
      if is_digit c then digit_run (acc * 10 + digit_val c) t
      else if Ascii.eqb c "_" then
        match t with
        | String c2 t2 =>
            if is_digit c2 then digit_run (acc * 10 + digit_val c2) t2 else (acc, s)
        | EmptyString => (acc, s)
        end
      else (acc, s)
  | EmptyString => (acc, EmptyString)
  end.

(** [int(s)] in base 10; [None] is the [ValueError]. *)
Definition int_ (s : string) : option Z :=
  let t := lstrip s in
  let '(sign, u) :=
    match t with
    | String c u => if Ascii.eqb c "+" then (1, u)
                    else if Ascii.eqb c "-" then (-1, u) else (1, t)
    | EmptyString => (1, t)
    end in
  match u with
  | String c _ =>
      if is_digit c then
        let '(n, rest) := digit_run 0 u in
        if all_space rest then Some (sign * n) else None
      else None
  | EmptyString => None
  end.

(** Decimal digits of [n >= 0] in front of [acc]; [fuel] bounds the
    number of digits. *)
Fixpoint digits_aux (fuel : nat) (n : Z) (acc : string) : string :=
  match fuel with
  | O => acc
  | S f =>
      let acc' := String (digit_char (n mod 10)) acc in
      if n <? 10 then acc' else digits_aux f (n / 10) acc'
  end.

(** [str(n)] *)
Definition str_ (n : Z) : string :=
  let m := Z.abs n in
  let ds := digits_aux (S (Z.to_nat (Z.log2 m))) m EmptyString in
  if n <? 0 then String "-" ds else ds.

(** [s.split(sep)] with an explicit one-character separator. *)
Fixpoint split_on (sep : ascii) (s : string) : list string :=
  match s with
  | EmptyString => [EmptyString]
  | String c t =>
      let parts := split_on sep t in
      if Ascii.eqb c sep then EmptyString :: parts
      else match parts with
           | p :: ps => String c p :: ps
           | [] => [String c EmptyString]
           end
  end.

End Py.

(* ------------------------------------------------------------------ *)
(** ** QR payloads and their verification *)

(** The payload that [generate_qr_file(registration_id, event_id, user_id)]
    (app/participant/routes.py) encodes in the ticket image. *)
Definition generate_qr_data (registration_id event_id user_id : Z) : string :=
  "REG-" ++ Py.str_ registration_id ++ "-" ++ Py.str_ user_id ++ "-" ++ Py.str_ event_id.

(** The payload that [_generate_qr(registration)]
    (app/services/waitlist_service.py) encodes for a promoted registration;
    it writes the same file name [qr_{id}.png]. *)
Definition promoted_qr_data (r : Registration) : string :=
  "EVENTHUB-REG-" ++ Py.str_ (reg_id r) ++ "-EVENT-" ++ Py.str_ (event_id r)
  ++ "-USER-" ++ Py.str_ (user_id r).

Definition msg_invalid_format : string := "Invalid QR code format".
Definition msg_non_numeric : string := "Invalid QR code — non-numeric ID".

(** [RegistrationService.verify_qr_code(qr_data)] for a string [qr_data]. *)
Definition verify_qr_code (db : DB) (qr_data : string)
  : option Registration * option string :=
  if String.eqb qr_data "" || negb (String.prefix "REG-" qr_data) then
    (None, Some msg_invalid_format)
  else
    match Py.split_on "-" qr_data with
    | [_; p1; p2; p3] =>
        match Py.int_ p1, Py.int_ p2, Py.int_ p3 with
        | Some registration_id, Some uid, Some eid =>
            match find_row (fun r => (reg_id r =? registration_id) && (user_id r =? uid)
                                     && (event_id r =? eid)) (regs db) with
            | None => (None, Some "Registration not found")
            | Some (_, registration) =>
                if reg_status_eqb (rstatus registration) Cancelled then
                  (None, Some "This registration has been cancelled")
                else if is_waitlist registration then
                  (None, Some "This attendee is on the waitlist, not confirmed")
                else (Some registration, None)
            end
        | _, _, _ => (None, Some msg_non_numeric)
        end
    | _ => (None, Some msg_invalid_format)
    end.

(* ------------------------------------------------------------------ *)
(** ** app/organizer/routes.py: [verify_qr] *)

Module Organizer.

(** The JSON answer: [{'success': True, ..., 'already_attended': ...}] or
    [{'error': msg}] with its HTTP code. *)
Inductive QrResponse :=
| QrOk (registration_id : Z) (already_attended : bool)
| QrError (code : Z) (msg : string).

(** [verify_qr()] posted by the organizer [organizer] with [qr_data]. *)
Definition verify_qr (db : DB) (organizer : Z) (qr_data : string) (now : Z)
  : QrResponse * DB :=
  if String.eqb qr_data "" then (QrError 400 "No QR data provided", db)
  else
    match verify_qr_code db qr_data with
    | (None, err) => (QrError 404 (default "" err), db)
    | (Some registration, _) =>
        match events db !! event_id registration with
        | None => (QrError 500 "Internal Server Error", db)  (* registration.event is None *)
        | Some ev =>
            if negb (organizer_id ev =? organizer) then (QrError 403 "Unauthorized", db)
            else
              let already_attended := attended registration in
              let '((success, message), db') :=
                RegistrationService.mark_attendance db (reg_id registration) now in
              if success then (QrOk (reg_id registration) already_attended, db')
              else (QrError 400 message, db')
        end
    end.

End Organizer.

(* ------------------------------------------------------------------ *)
(** ** More of app/services/event_service.py *)

Module EventService2.

(** [create_event(...)] with the primary key [new_id] handed out by the
    database: [available_seats = max_participants], [is_active = True]. *)
Definition create_event (db : DB) (new_id organizer new_event_date new_deadline max : Z)
    (paid waitlist : bool) (now : Z) : option Event * DB :=
  let ev := {| max_participants := max; available_seats := max;
               event_date := new_event_date; registration_deadline := new_deadline;
               is_paid := paid; allow_waitlist := waitlist; is_active := true;
               organizer_id := organizer; updated_at := now; status := "active";
               status_reason := None; postponed_to := None; cancelled_at := None |} in
  (Some ev, put_event db new_id ev).

(** [delete_event(event_id, organizer_id)]: bulk delete of the event's
    registrations, then the event, in one commit. *)
Definition delete_event (db : DB) (eid organizer : Z) : (bool * string) * DB :=
  match events db !! eid with
  | None => ((false, "Event not found"), db)
  | Some ev =>
      if negb (organizer_id ev =? organizer) then ((false, "Unauthorized"), db)
      else
        ((true, "Event deleted successfully"),
         {| users := users db; events := delete eid (events db);
            regs := List.filter (fun r => negb (event_id r =? eid)) (regs db);
            next_reg_id := next_reg_id db |})
  end.

(** [toggle_event_status(event_id)]; the commit stamps [updated_at]
    ([onupdate=datetime.utcnow]). *)
Definition toggle_event_status (db : DB) (eid now : Z) : option Event * DB :=
  match events db !! eid with
  | None => (None, db)
  | Some ev =>
      let ev' := {| max_participants := max_participants ev;
                    available_seats := available_seats ev;
                    event_date := event_date ev;
                    registration_deadline := registration_deadline ev;
                    is_paid := is_paid ev; allow_waitlist := allow_waitlist ev;
                    is_active := negb (is_active ev); organizer_id := organizer_id ev;
                    updated_at := now; status := status ev;
                    status_reason := status_reason ev; postponed_to := postponed_to ev;
                    cancelled_at := cancelled_at ev |} in
      (Some ev', put_event db eid ev')
  end.

(** The integer entries of [get_event_statistics(event_id)]
    ([capacity_filled] and [attendance_rate] are rounded floats, not modelled). *)
Record EventStats := mkEventStats {
  total_registrations : Z;
  confirmed           : Z;
  waitlist            : Z;
  attended_count      : Z;
  stats_available     : Z   (* event.available_seats or 0 *)
}.

Definition get_event_statistics (db : DB) (eid : Z) : option EventStats :=
  match events db !! eid with
  | None => None
  | Some ev =>
      let registrations := List.filter (fun r => event_id r =? eid) (regs db) in
      Some {| total_registrations := Z.of_nat (length registrations);
              confirmed := Z.of_nat (length (List.filter is_confirmed registrations));
              waitlist := Z.of_nat (length (List.filter is_waitlist registrations));
              attended_count := Z.of_nat (length (List.filter attended registrations));
              stats_available := available_seats ev |}
  end.

End EventService2.

(* ------------------------------------------------------------------ *)
(** ** More of app/services/registration_service.py *)

Module RegistrationQueries.

Definition status_str (s : reg_status) : string :=
  match s with
  | Pending => "pending" | Confirmed => "confirmed"
  | Cancelled => "cancelled" | Waitlist => "waitlist"
  end.

(** [if status: query = query.filter_by(status=status)] *)
Definition status_filter (status : option string) (rs : list Registration)
  : list Registration :=
  match status with
  | Some s => if String.eqb s "" then rs
              else List.filter (fun r => String.eqb (status_str (rstatus r)) s) rs
  | None => rs
  end.

Definition created_le (a b : Registration) : Prop := created_at a <= created_at b.
Definition created_ge (a b : Registration) : Prop := created_at b <= created_at a.

#[global] Instance created_le_dec : RelDecision created_le :=
  fun a b => Z_le_dec (created_at a) (created_at b).
#[global] Instance created_ge_dec : RelDecision created_ge :=
  fun a b => Z_le_dec (created_at b) (created_at a).

(** [get_event_registrations(event_id, status)]: [ORDER BY created_at ASC]
    (ties in rowid order). *)
Definition get_event_registrations (db : DB) (eid : Z) (status : option string)
  : list Registration :=
  merge_sort created_le
    (status_filter status (List.filter (fun r => event_id r =? eid) (regs db))).

(** [get_user_registrations(user_id, status)]: [ORDER BY created_at DESC]. *)
Definition get_user_registrations (db : DB) (uid : Z) (status : option string)
  : list Registration :=
  merge_sort created_ge
    (status_filter status (List.filter (fun r => user_id r =? uid) (regs db))).

End RegistrationQueries.

(* ------------------------------------------------------------------ *)
(** ** app/participant/routes.py: [event_status_api] *)

Module ParticipantApi.

Record StatusJson := mkStatusJson {
  api_event_id         : Z;
  api_available_seats  : Z;
  api_max_participants : Z;
  is_sold_out          : bool;
  api_status           : string;
  api_status_reason    : string;
  api_postponed_to     : option Z
}.

(** [event_status_api(event_id)]; [None] is the 404. *)
Definition event_status_api (db : DB) (eid : Z) : option StatusJson :=
  match events db !! eid with
  | None => None
  | Some ev =>
      Some {| api_event_id := eid;
              api_available_seats := available_seats ev;
              api_max_participants := max_participants ev;
              is_sold_out := available_seats ev <=? 0;
              api_status := if String.eqb (status ev) "" then "active" else status ev;
              api_status_reason := match status_reason ev with Some s => s | None => "" end;
              api_postponed_to := postponed_to ev |}
  end.

End ParticipantApi.

(* ------------------------------------------------------------------ *)
(** ** Operations on the store *)

(** The requests that touch seats and registrations, each run alone
    against the store. *)
Inductive op :=
| ORegister (uid eid now : Z)                       (* participant route *)
| ORegisterSvc (uid eid now : Z)                    (* RegistrationService *)
| OCancel (uid rid : Z)                             (* participant route *)
| OCancelSvc (uid eid : Z)                          (* RegistrationService *)
| OPromote (eid : Z)                                (* WaitlistService *)
| OResize (eid organizer date deadline : Z) (new_max : option Z)
          (paid : bool) (waitlist : option bool)    (* EventService.update_event *)
| OMarkAttendance (rid now : Z).                    (* RegistrationService *)

Definition exec (db : DB) (o : op) : DB :=
  match o with
  | ORegister uid eid now => snd (Participant.register_event db uid eid now)
  | ORegisterSvc uid eid now => snd (RegistrationService.register_for_event db uid eid now)
  | OCancel uid rid => snd (Participant.cancel_registration db uid rid)
  | OCancelSvc uid eid => snd (RegistrationService.cancel_registration db uid eid)
  | OPromote eid => snd (WaitlistService.promote_from_waitlist db eid)
  | OResize eid org d dl m p w => snd (EventService.update_event db eid org d dl m p w)
  | OMarkAttendance rid now => snd (RegistrationService.mark_attendance db rid now)
  end.

Fixpoint run (db : DB) (ops : list op) : DB :=
  match ops with
  | [] => db
  | o :: ops' => run (exec db o) ops'
  end.

(** The conservation invariant of the spec, for every stored event. *)
Definition conserved (db : DB) : Prop :=
  forall eid ev, events db !! eid = Some ev ->
    available_seats ev = max_participants ev - confirmed_count eid (regs db).

Definition seats_nonneg (db : DB) : Prop :=
  forall eid ev, events db !! eid = Some ev -> 0 <= available_seats ev.

(** A capacity resize that does not go below the confirmed count (or does
    not change the capacity at all). *)
Definition resize_fits (db : DB) (o : op) : Prop :=
  match o with
  | OResize eid _ _ _ m _ _ =>
      match EventService.truthy m with
      | Some n => confirmed_count eid (regs db) <= n
      | None => True
      end
  | _ => True
  end.

Fixpoint resizes_fit (db : DB) (ops : list op) : Prop :=
  match ops with
  | [] => True
  | o :: ops' => resize_fits db o /\ resizes_fit (exec db o) ops'
  end.

(* ------------------------------------------------------------------ *)
(** ** Lemmas on the registrations table *)

Lemma find_row_some p rs i r :
  find_row p rs = Some (i, r) -> rs !! i = Some r /\ p r = true.
Proof.
  revert i. induction rs as [|x rs IH]; intros i H; simpl in H; [discriminate|].
  destruct (p x) eqn:Hp.
  - injection H as <- <-. auto.
  - destruct (find_row p rs) as [[j y]|] eqn:Hf; [|discriminate].
    injection H as <- <-. simpl. apply IH. reflexivity.
Qed.

Lemma find_row_none p rs :
  find_row p rs = None -> forall j r, rs !! j = Some r -> p r = false.
Proof.
  induction rs as [|x rs IH]; intros H j r Hj; [discriminate|].
  simpl in H. destruct (p x) eqn:Hp; [discriminate|].
  destruct (find_row p rs) as [[k y]|]; [discriminate|].
  destruct j as [|j]; simpl in Hj; [congruence|]. eauto.
Qed.

Lemma find_row_exists p rs j r :
  rs !! j = Some r -> p r = true -> exists i x, find_row p rs = Some (i, x).
Proof.
  intros Hj Hp. destruct (find_row p rs) as [[i x]|] eqn:Hf; eauto.
  rewrite (find_row_none p rs Hf j r Hj) in Hp. discriminate.
Qed.

Lemma count_insert eid (rs : list Registration) i r r' :
  rs !! i = Some r ->
  confirmed_count eid (<[i := r']> rs) =
  confirmed_count eid rs - confirmed_weight eid r + confirmed_weight eid r'.
Proof.
  revert i. induction rs as [|x rs IH]; intros [|i] H; simpl in *; try discriminate.
  - injection H as ->. lia.
  - rewrite (IH i H). lia.
Qed.

Lemma count_delete eid (rs : list Registration) i r :
  rs !! i = Some r ->
  confirmed_count eid (delete i rs) = confirmed_count eid rs - confirmed_weight eid r.
Proof.
  revert i. induction rs as [|x rs IH]; intros [|i] H; simpl in *; try discriminate.
  - injection H as ->. lia.
  - rewrite (IH i H). lia.
Qed.

Lemma count_app eid rs r :
  confirmed_count eid (rs ++ [r]) = confirmed_count eid rs + confirmed_weight eid r.
Proof. induction rs as [|x rs IH]; simpl; lia. Qed.

Lemma weight_other eid eid' r :
  event_id r = eid -> eid' <> eid -> confirmed_weight eid' r = 0.
Proof.
  intros H Hne. unfold confirmed_weight. rewrite H.
  destruct (Z.eqb_spec eid eid'); [congruence|reflexivity].
Qed.

Lemma min_waitlist_none eid rs :
  min_waitlist_created eid rs = None ->
  forall j r, rs !! j = Some r -> waitlisted_for eid r = false.
Proof.
  induction rs as [|x rs IH]; intros H j r Hj; [discriminate|].
  simpl in H. destruct (waitlisted_for eid x) eqn:Hw.
  - destruct (min_waitlist_created eid rs); discriminate.
  - destruct j as [|j]; simpl in Hj; [congruence|]. eauto.
Qed.

Lemma min_waitlist_le eid rs m :
  min_waitlist_created eid rs = Some m ->
  forall j r, rs !! j = Some r -> waitlisted_for eid r = true -> m <= created_at r.
Proof.
  revert m. induction rs as [|x rs IH]; intros m H j r Hj Hw; [discriminate|].
  simpl in H. destruct j as [|j]; simpl in Hj.
  - injection Hj as ->. rewrite Hw in H.
    destruct (min_waitlist_created eid rs); injection H as <-; lia.
  - destruct (waitlisted_for eid x).
    + destruct (min_waitlist_created eid rs) as [c|] eqn:Hc.
      * injection H as <-. specialize (IH c eq_refl j r Hj Hw). lia.
      * rewrite (min_waitlist_none eid rs Hc j r Hj) in Hw. discriminate.
    + eauto.
Qed.

Lemma min_waitlist_attained eid rs m :
  min_waitlist_created eid rs = Some m ->
  exists j r, rs !! j = Some r /\ waitlisted_for eid r = true /\ created_at r = m.
Proof.
  revert m. induction rs as [|x rs IH]; intros m H; [discriminate|].
  simpl in H. destruct (waitlisted_for eid x) eqn:Hw.
  - destruct (min_waitlist_created eid rs) as [c|] eqn:Hc.
    + injection H as <-. destruct (Z.le_ge_cases (created_at x) c).
      * exists 0%nat, x. simpl. repeat split; auto. lia.
      * destruct (IH c eq_refl) as (j & r & Hj & Hr & Hcr).
        exists (S j), r. simpl. repeat split; auto. lia.
    + injection H as <-. exists 0%nat, x. auto.
  - destruct (IH m H) as (j & r & ?). exists (S j), r. auto.
Qed.

(** FIFO: the row chosen is a waitlist row of the event whose [created_at]
    is no later than that of any waitlist row of the event. *)
Lemma oldest_waitlist_some eid rs i r :
  oldest_waitlist eid rs = Some (i, r) ->
  rs !! i = Some r /\ waitlisted_for eid r = true /\
  forall j r2, rs !! j = Some r2 -> waitlisted_for eid r2 = true ->
    created_at r <= created_at r2.
Proof.
  unfold oldest_waitlist. destruct (min_waitlist_created eid rs) as [m|] eqn:Hm;
    [|discriminate].
  intros H. apply find_row_some in H as [Hi Hp].
  apply andb_prop in Hp as [Hw Hc]. apply Z.eqb_eq in Hc.
  repeat split; auto. intros j r2 Hj Hw2. rewrite Hc. eapply min_waitlist_le; eauto.
Qed.

Lemma oldest_waitlist_none eid rs :
  oldest_waitlist eid rs = None ->
  forall j r, rs !! j = Some r -> waitlisted_for eid r = false.
Proof.
  unfold oldest_waitlist. destruct (min_waitlist_created eid rs) as [m|] eqn:Hm.
  - intros H. exfalso.
    destruct (min_waitlist_attained eid rs m Hm) as (j & r & Hj & Hw & Hc).
    destruct (find_row_exists (fun r => waitlisted_for eid r && (created_at r =? m)) rs j r Hj)
      as (i & x & Hf).
    + rewrite Hw, Hc, Z.eqb_refl. reflexivity.
    + congruence.
  - intros _. apply min_waitlist_none; auto.
Qed.

(* ------------------------------------------------------------------ *)
(** ** Frame lemmas for the invariants *)

Lemma conserved_put db db' eid ev' :
  conserved db ->
  events db' = <[eid := ev']> (events db) ->
  (forall e, e <> eid -> confirmed_count e (regs db') = confirmed_count e (regs db)) ->
  available_seats ev' = max_participants ev' - confirmed_count eid (regs db') ->
  conserved db'.
Proof.
  intros Hc He Hcount Hnew e ev0 Hl. rewrite He in Hl.
  destruct (decide (eid = e)) as [<-|Hne].
  - rewrite lookup_insert_eq in Hl. injection Hl as <-. exact Hnew.
  - rewrite lookup_insert_ne in Hl by exact Hne. rewrite Hcount by congruence.
    exact (Hc e ev0 Hl).
Qed.

Lemma conserved_same_events db db' :
  conserved db -> events db' = events db ->
  (forall e, confirmed_count e (regs db') = confirmed_count e (regs db)) ->
  conserved db'.
Proof.
  intros Hc He Hcount e ev0 Hl. rewrite He in Hl. rewrite Hcount. exact (Hc e ev0 Hl).
Qed.

Lemma nonneg_put db db' eid ev' :
  seats_nonneg db -> events db' = <[eid := ev']> (events db) ->
  0 <= available_seats ev' -> seats_nonneg db'.
Proof.
  intros Hn He Hnew e ev0 Hl. rewrite He in Hl.
  destruct (decide (eid = e)) as [<-|Hne].
  - rewrite lookup_insert_eq in Hl. injection Hl as <-. exact Hnew.
  - rewrite lookup_insert_ne in Hl by exact Hne. exact (Hn e ev0 Hl).
Qed.

Lemma find_row_user_event uid eid rs i r :
  find_row (fun r => (user_id r =? uid) && (event_id r =? eid)) rs = Some (i, r) ->
  rs !! i = Some r /\ user_id r = uid /\ event_id r = eid.
Proof.
  intros H. apply find_row_some in H as [Hi Hp].
  apply andb_prop in Hp as [Hu He]. apply Z.eqb_eq in Hu, He. auto.
Qed.

Lemma waitlisted_weight eid r e :
  waitlisted_for eid r = true -> confirmed_weight e r = 0.
Proof.
  unfold waitlisted_for, confirmed_weight, is_waitlist, is_confirmed.
  destruct (rstatus r); simpl; rewrite ?andb_false_r; easy.
Qed.

Lemma waitlisted_event eid r : waitlisted_for eid r = true -> event_id r = eid.
Proof. unfold waitlisted_for. intros H. apply andb_prop in H as [H1 _]. lia. Qed.

Lemma weight_confirmed_self r :
  confirmed_weight (event_id r) (set_rstatus r Confirmed) = 1.
Proof. unfold confirmed_weight. simpl. rewrite Z.eqb_refl. reflexivity. Qed.

Lemma weight_set_other r e s :
  e <> event_id r -> confirmed_weight e (set_rstatus r s) = 0.
Proof.
  intros Hne. unfold confirmed_weight. simpl.
  destruct (Z.eqb_spec (event_id r) e); [congruence|reflexivity].
Qed.

(** Promotion: one waitlist row becomes confirmed, one seat is consumed. *)
Lemma promote_effect db eid p db' :
  WaitlistService.promote_from_waitlist db eid = (Some p, db') ->
  exists ev i r,
    events db !! eid = Some ev /\ 0 < available_seats ev /\
    oldest_waitlist eid (regs db) = Some (i, r) /\ p = set_rstatus r Confirmed /\
    regs db' = <[i := p]> (regs db) /\
    events db' = <[eid := set_available_seats ev (available_seats ev - 1)]> (events db) /\
    users db' = users db /\ next_reg_id db' = next_reg_id db.
Proof.
  unfold WaitlistService.promote_from_waitlist, WaitlistService.atomic_promote.
  destruct (events db !! eid) as [ev|] eqn:Hev; [|discriminate].
  destruct (Z.leb_spec (available_seats ev) 0) as [Hle|Hgt]; [discriminate|].
  destruct (oldest_waitlist eid (regs db)) as [[i r]|] eqn:Ho; [|discriminate].
  intros H. injection H as <- <-. exists ev, i, r. repeat split; auto.
Qed.

Lemma promote_none db eid db' :
  WaitlistService.promote_from_waitlist db eid = (None, db') -> db' = db.
Proof.
  unfold WaitlistService.promote_from_waitlist, WaitlistService.atomic_promote.
  destruct (events db !! eid) as [ev|]; [|congruence].
  destruct (available_seats ev <=? 0); [congruence|].
  destruct (oldest_waitlist eid (regs db)) as [[i r]|]; congruence.
Qed.

Lemma promote_conserved db eid :
  conserved db -> conserved (snd (WaitlistService.promote_from_waitlist db eid)).
Proof.
  intros Hc. destruct (WaitlistService.promote_from_waitlist db eid) as [[p|] db'] eqn:Hp;
    simpl.
  - destruct (promote_effect _ _ _ _ Hp)
      as (ev & i & r & Hev & Hpos & Ho & -> & Hr & He & _).
    apply oldest_waitlist_some in Ho as (Hi & Hw & _).
    pose proof (waitlisted_event _ _ Hw) as Hre.
    eapply conserved_put; [exact Hc|exact He| |].
    + intros e Hne. rewrite Hr, (count_insert e _ i r _ Hi).
      rewrite (waitlisted_weight eid r e Hw), weight_set_other by congruence. lia.
    + rewrite Hr, (count_insert eid _ i r _ Hi), (waitlisted_weight eid r eid Hw).
      subst eid. rewrite weight_confirmed_self. simpl.
      rewrite (Hc _ ev Hev). lia.
  - apply promote_none in Hp. subst. exact Hc.
Qed.

Lemma promote_nonneg db eid :
  seats_nonneg db -> seats_nonneg (snd (WaitlistService.promote_from_waitlist db eid)).
Proof.
  intros Hn. destruct (WaitlistService.promote_from_waitlist db eid) as [[p|] db'] eqn:Hp;
    simpl.
  - destruct (promote_effect _ _ _ _ Hp) as (ev & i & r & Hev & Hpos & _ & _ & _ & He & _).
    eapply nonneg_put; [exact Hn|exact He|]. simpl. lia.
  - apply promote_none in Hp. subst. exact Hn.
Qed.

(** Weight of a row built field by field: 1 exactly for a confirmed row of
    the event. *)
Lemma weight_row e x u ev s p a t c :
  confirmed_weight e {| reg_id := x; user_id := u; event_id := ev; rstatus := s;
                        payment_status := p; attended := a; attendance_time := t;
                        created_at := c |} =
  if (ev =? e) && reg_status_eqb s Confirmed then 1 else 0.
Proof. reflexivity. Qed.

Lemma weight_not_confirmed e r :
  reg_status_eqb (rstatus r) Confirmed = false -> confirmed_weight e r = 0.
Proof. unfold confirmed_weight, is_confirmed. intros ->. now rewrite andb_false_r. Qed.

Ltac weight_cases :=
  rewrite ?weight_row; simpl reg_status_eqb; rewrite ?andb_true_r, ?andb_false_r;
  repeat match goal with
         | |- context [?a =? ?b] => destruct (Z.eqb_spec a b)
         end; try lia.

Lemma register_event_conserved db uid eid now :
  conserved db -> conserved (snd (Participant.register_event db uid eid now)).
Proof.
  intros Hc. unfold Participant.register_event, Participant.register_read.
  destruct (events db !! eid) as [ev|] eqn:Hev; [|exact Hc].
  destruct (Participant.status_blocks (status ev)); [exact Hc|].
  destruct (find_row _ (regs db)) as [[i existing]|] eqn:Hf.
  - destruct (reg_status_eqb (rstatus existing) Cancelled) eqn:Hcan; [|exact Hc].
    destruct (available_seats ev <=? 0); [exact Hc|]. simpl. rewrite Hev.
    apply find_row_user_event in Hf as (Hi & _ & He).
    apply reg_status_eqb_spec in Hcan.
    assert (Hw : forall e, confirmed_weight e existing = 0)
      by (intros e; apply weight_not_confirmed; now rewrite Hcan).
    eapply conserved_put; [exact Hc|reflexivity| |].
    + intros e Hne. simpl. rewrite (count_insert e _ i existing _ Hi), Hw, He.
      weight_cases.
    + simpl. rewrite (count_insert eid _ i existing _ Hi), Hw, He, (Hc _ _ Hev).
      weight_cases.
  - destruct (now >? registration_deadline ev); [exact Hc|].
    destruct (Z.leb_spec (available_seats ev) 0) as [Hle|Hgt].
    + destruct (allow_waitlist ev); [|exact Hc]. simpl.
      apply conserved_same_events with db; [exact Hc|reflexivity|].
      intros e. simpl. rewrite count_app. weight_cases.
    + simpl. rewrite Hev, Z.gtb_ltb. destruct (Z.ltb_spec 0 (available_seats ev)); [|lia]. simpl.
      eapply conserved_put; [exact Hc|reflexivity| |].
      * intros e Hne. simpl. rewrite count_app. weight_cases.
      * simpl. rewrite count_app, (Hc _ _ Hev). weight_cases.
Qed.

Lemma register_event_nonneg db uid eid now :
  seats_nonneg db -> seats_nonneg (snd (Participant.register_event db uid eid now)).
Proof.
  intros Hn. unfold Participant.register_event, Participant.register_read.
  destruct (events db !! eid) as [ev|] eqn:Hev; [|exact Hn].
  destruct (Participant.status_blocks (status ev)); [exact Hn|].
  destruct (find_row _ (regs db)) as [[i existing]|] eqn:Hf.
  - destruct (reg_status_eqb (rstatus existing) Cancelled); [|exact Hn].
    destruct (Z.leb_spec (available_seats ev) 0) as [Hle|Hgt]; [exact Hn|]. simpl.
    rewrite Hev. eapply nonneg_put; [exact Hn|reflexivity|]. simpl. lia.
  - destruct (now >? registration_deadline ev); [exact Hn|].
    destruct (Z.leb_spec (available_seats ev) 0) as [Hle|Hgt].
    + destruct (allow_waitlist ev); [|exact Hn]. simpl. exact Hn.
    + simpl. rewrite Hev, Z.gtb_ltb. destruct (Z.ltb_spec 0 (available_seats ev)); [|lia]. simpl.
      eapply nonneg_put; [exact Hn|reflexivity|]. simpl. lia.
Qed.

Lemma register_for_event_conserved db uid eid now :
  conserved db -> conserved (snd (RegistrationService.register_for_event db uid eid now)).
Proof.
  intros Hc. unfold RegistrationService.register_for_event.
  destruct (negb _); [exact Hc|].
  destruct (events db !! eid) as [ev|] eqn:Hev; [|exact Hc].
  destruct (now >? registration_deadline ev); [exact Hc|].
  destruct (find_row _ (regs db)) as [[i existing]|]; [exact Hc|].
  destruct (available_seats ev <=? 0); [exact Hc|]. simpl.
  eapply conserved_put; [exact Hc|reflexivity| |].
  - intros e Hne. simpl. rewrite count_app. weight_cases.
  - simpl. rewrite count_app, (Hc _ _ Hev). weight_cases.
Qed.

Lemma register_for_event_nonneg db uid eid now :
  seats_nonneg db -> seats_nonneg (snd (RegistrationService.register_for_event db uid eid now)).
Proof.
  intros Hn. unfold RegistrationService.register_for_event.
  destruct (negb _); [exact Hn|].
  destruct (events db !! eid) as [ev|] eqn:Hev; [|exact Hn].
  destruct (now >? registration_deadline ev); [exact Hn|].
  destruct (find_row _ (regs db)) as [[i existing]|]; [exact Hn|].
  destruct (Z.leb_spec (available_seats ev) 0) as [Hle|Hgt]; [exact Hn|]. simpl.
  eapply nonneg_put; [exact Hn|reflexivity|]. simpl. lia.
Qed.

Lemma weight_confirmed_row e r :
  is_confirmed r = true -> confirmed_weight e r = if event_id r =? e then 1 else 0.
Proof. unfold confirmed_weight. intros ->. now rewrite andb_true_r. Qed.

Lemma cancel_route_conserved db uid rid :
  conserved db -> conserved (snd (Participant.cancel_registration db uid rid)).
Proof.
  intros Hc. unfold Participant.cancel_registration.
  destruct (find_row _ (regs db)) as [[i r]|] eqn:Hf; [|exact Hc].
  apply find_row_some in Hf as [Hi _].
  destruct (negb _); [exact Hc|]. destruct (attended r); [exact Hc|].
  destruct (events db !! event_id r) as [ev|] eqn:Hev; [|exact Hc].
  destruct (is_confirmed r) eqn:Hconf; simpl.
  - apply promote_conserved.
    eapply conserved_put; [exact Hc|reflexivity| |].
    + intros e Hne. simpl. rewrite (count_delete e _ i r Hi), weight_confirmed_row by exact Hconf.
      weight_cases.
    + simpl. rewrite (count_delete _ _ i r Hi), weight_confirmed_row, Z.eqb_refl by exact Hconf.
      rewrite (Hc _ _ Hev). lia.
  - apply conserved_same_events with db; [exact Hc|reflexivity|].
    intros e. simpl. rewrite (count_delete e _ i r Hi), weight_not_confirmed; [lia|].
    exact Hconf.
Qed.

Lemma cancel_route_nonneg db uid rid :
  seats_nonneg db -> seats_nonneg (snd (Participant.cancel_registration db uid rid)).
Proof.
  intros Hn. unfold Participant.cancel_registration.
  destruct (find_row _ (regs db)) as [[i r]|] eqn:Hf; [|exact Hn].
  destruct (negb _); [exact Hn|]. destruct (attended r); [exact Hn|].
  destruct (events db !! event_id r) as [ev|] eqn:Hev; [|exact Hn].
  destruct (is_confirmed r); simpl; [|exact Hn].
  apply promote_nonneg. eapply nonneg_put; [exact Hn|reflexivity|].
  simpl. pose proof (Hn _ _ Hev). lia.
Qed.

Lemma cancel_svc_conserved db uid eid :
  conserved db -> conserved (snd (RegistrationService.cancel_registration db uid eid)).
Proof.
  intros Hc. unfold RegistrationService.cancel_registration.
  destruct (find_row _ (regs db)) as [[i r]|] eqn:Hf; [|exact Hc].
  apply find_row_user_event in Hf as (Hi & _ & Hre).
  destruct (attended r); [exact Hc|].
  destruct (is_confirmed r) eqn:Hconf.
  - destruct (events db !! eid) as [ev|] eqn:Hev; [|exact Hc].
    destruct (oldest_waitlist eid (regs db)) as [[j w]|] eqn:Ho; simpl.
    + apply oldest_waitlist_some in Ho as (Hj & Hw & _).
      pose proof (waitlisted_event _ _ Hw) as Hwe.
      assert (Hij : i <> j).
      { intros <-. rewrite Hi in Hj. injection Hj as <-.
        unfold waitlisted_for, is_waitlist, is_confirmed in *.
        destruct (rstatus r); simpl in *; rewrite ?andb_false_r in Hw; discriminate. }
      assert (Hi1 : <[j := set_rstatus w Confirmed]> (regs db) !! i = Some r)
        by (rewrite list_lookup_insert_ne by congruence; exact Hi).
      eapply conserved_put; [exact Hc|reflexivity| |].
      * intros e Hne. simpl. rewrite (count_delete e _ i r Hi1), (count_insert e _ j w _ Hj).
        rewrite (waitlisted_weight eid w e Hw), weight_set_other by congruence.
        rewrite (weight_confirmed_row e r Hconf). weight_cases.
      * simpl. rewrite (count_delete _ _ i r Hi1), (count_insert _ _ j w _ Hj).
        rewrite (waitlisted_weight eid w eid Hw), (weight_confirmed_row _ r Hconf), Hre,
          Z.eqb_refl.
        rewrite <- Hwe at 2. rewrite weight_confirmed_self, (Hc _ _ Hev). simpl. lia.
    + eapply conserved_put; [exact Hc|reflexivity| |].
      * intros e Hne. simpl. rewrite (count_delete e _ i r Hi), weight_confirmed_row
          by exact Hconf. weight_cases.
      * simpl. rewrite (count_delete _ _ i r Hi), weight_confirmed_row, Hre, Z.eqb_refl
          by exact Hconf. rewrite (Hc _ _ Hev). lia.
  - assert (Hdel : conserved (set_regs db (delete i (regs db)))).
    { apply conserved_same_events with db; [exact Hc|reflexivity|].
      intros e. simpl. rewrite (count_delete e _ i r Hi), weight_not_confirmed; [lia|].
      exact Hconf. }
    destruct (events db !! eid); exact Hdel.
Qed.

Lemma cancel_svc_nonneg db uid eid :
  seats_nonneg db -> seats_nonneg (snd (RegistrationService.cancel_registration db uid eid)).
Proof.
  intros Hn. unfold RegistrationService.cancel_registration.
  destruct (find_row _ (regs db)) as [[i r]|]; [|exact Hn].
  destruct (attended r); [exact Hn|].
  destruct (events db !! eid) as [ev|] eqn:Hev; [|destruct (is_confirmed r); exact Hn].
  destruct (is_confirmed r); [|exact Hn].
  pose proof (Hn _ _ Hev).
  destruct (oldest_waitlist eid (regs db)) as [[j w]|]; simpl;
    (eapply nonneg_put; [exact Hn|reflexivity|]); simpl; lia.
Qed.

Lemma update_event_conserved db eid org d dl m p w :
  conserved db -> resize_fits db (OResize eid org d dl m p w) ->
  conserved (snd (EventService.update_event db eid org d dl m p w)).
Proof.
  intros Hc Hfit. simpl in Hfit. unfold EventService.update_event.
  destruct (events db !! eid) as [ev|] eqn:Hev; [|exact Hc].
  destruct (negb _); [exact Hc|].
  pose proof (Hc _ _ Hev) as Hs.
  destruct (EventService.truthy m) as [n|];
    [destruct (Z.eqb_spec n (max_participants ev))|]; simpl;
    (eapply conserved_put; [exact Hc|reflexivity|reflexivity|]); simpl; lia.
Qed.

Lemma update_event_nonneg db eid org d dl m p w :
  seats_nonneg db -> seats_nonneg (snd (EventService.update_event db eid org d dl m p w)).
Proof.
  intros Hn. unfold EventService.update_event.
  destruct (events db !! eid) as [ev|] eqn:Hev; [|exact Hn].
  destruct (negb _); [exact Hn|].
  pose proof (Hn _ _ Hev).
  destruct (EventService.truthy m) as [n|]; [destruct (negb _)|]; simpl;
    (eapply nonneg_put; [exact Hn|reflexivity|]); simpl; lia.
Qed.

Lemma mark_attendance_regs db rid now :
  events (snd (RegistrationService.mark_attendance db rid now)) = events db /\
  forall e, confirmed_count e (regs (snd (RegistrationService.mark_attendance db rid now))) =
            confirmed_count e (regs db).
Proof.
  unfold RegistrationService.mark_attendance.
  destruct (find_row _ (regs db)) as [[i r]|] eqn:Hf; [|auto].
  apply find_row_some in Hf as [Hi _].
  destruct (attended r); [auto|]. simpl. split; [reflexivity|].
  intros e. rewrite (count_insert e _ i r _ Hi). unfold confirmed_weight, is_confirmed.
  simpl. lia.
Qed.

Lemma exec_conserved db o :
  conserved db -> resize_fits db o -> conserved (exec db o).
Proof.
  intros Hc Hfit. destruct o; simpl.
  - apply register_event_conserved; exact Hc.
  - apply register_for_event_conserved; exact Hc.
  - apply cancel_route_conserved; exact Hc.
  - apply cancel_svc_conserved; exact Hc.
  - apply promote_conserved; exact Hc.
  - apply update_event_conserved; assumption.
  - destruct (mark_attendance_regs db rid now) as [He Hcount].
    apply conserved_same_events with db; assumption.
Qed.

Lemma exec_nonneg db o : seats_nonneg db -> seats_nonneg (exec db o).
Proof.
  intros Hn. destruct o; simpl.
  - apply register_event_nonneg; exact Hn.
  - apply register_for_event_nonneg; exact Hn.
  - apply cancel_route_nonneg; exact Hn.
  - apply cancel_svc_nonneg; exact Hn.
  - apply promote_nonneg; exact Hn.
  - apply update_event_nonneg; exact Hn.
  - destruct (mark_attendance_regs db rid now) as [He _].
    intros e ev Hl. rewrite He in Hl. exact (Hn e ev Hl).
Qed.

(* ------------------------------------------------------------------ *)
(** ** Concrete stores used by the examples *)

(** An active event owned by user 7: deadline 50, date 100, not paid. *)
Definition mk_event (mx seats : Z) (waitlist : bool) : Event :=
  {| max_participants := mx; available_seats := seats; event_date := 100;
     registration_deadline := 50; is_paid := false; allow_waitlist := waitlist;
     is_active := true; organizer_id := 7; updated_at := 0; status := "active";
     status_reason := None; postponed_to := None; cancelled_at := None |}.

Definition mk_reg (rid uid eid : Z) (s : reg_status) (t : Z) : Registration :=
  {| reg_id := rid; user_id := uid; event_id := eid; rstatus := s;
     payment_status := NotRequired; attended := false; attendance_time := None;
     created_at := t |}.

(** Event 1 with capacity 2, both seats taken by users 10 and 11. *)
Definition full_db : DB :=
  {| users := [10; 11; 12]; events := {[ 1 := mk_event 2 0 true ]};
     regs := [mk_reg 1 10 1 Confirmed 5; mk_reg 2 11 1 Confirmed 6];
     next_reg_id := 3 |}.

Lemma full_db_conserved : conserved full_db.
Proof.
  intros e ev H. simpl in H. destruct (decide (e = 1)) as [->|Hne].
  - rewrite lookup_singleton_eq in H. injection H as <-. reflexivity.
  - rewrite lookup_singleton_ne in H by congruence. discriminate.
Qed.

Lemma full_db_nonneg : seats_nonneg full_db.
Proof.
  intros e ev H. simpl in H. destruct (decide (e = 1)) as [->|Hne].
  - rewrite lookup_singleton_eq in H. injection H as <-. simpl. lia.
  - rewrite lookup_singleton_ne in H by congruence. discriminate.
Qed.

(** Status of the row with a given primary key. *)
Definition status_of (db : DB) (rid : Z) : option reg_status :=
  match find_row (fun r => reg_id r =? rid) (regs db) with
  | Some (_, r) => Some (rstatus r)
  | None => None
  end.

Definition seats_of (db : DB) (eid : Z) : option Z :=
  match events db !! eid with Some e => Some (available_seats e) | None => None end.

(* ------------------------------------------------------------------ *)
(** ** C1: conservation of seats *)

(** C1 (as stated, refuted): a capacity resize below the number of
    confirmed registrations clamps [available_seats] to 0, after which
    [max_participants - available_seats] no longer equals the confirmed
    count.  From [full_db] (capacity 2, two confirmed) the organizer sets
    the capacity to 1. *)
Lemma C1_resize_breaks_conservation :
  conserved full_db /\
  ~ conserved (run full_db [OResize 1 7 100 50 (Some 1) false None]).
Proof.
  split; [exact full_db_conserved|].
  intros H. specialize (H 1 (mk_event 1 0 true) ltac:(vm_compute; reflexivity)).
  vm_compute in H. discriminate H.
Qed.

(** C1 (amended): starting from a store where every event satisfies
    [available_seats = max_participants - confirmed count], any sequence of
    registrations (route and service), cancellations (route and service),
    promotions, attendance marks and event edits keeps the equality for
    every event, provided each capacity resize sets a capacity no smaller
    than the confirmed count at that moment. *)
Theorem C1_conservation_preserved db ops :
  conserved db -> resizes_fit db ops -> conserved (run db ops).
Proof.
  revert db. induction ops as [|o ops IH]; intros db Hc Hfit; simpl in *; [exact Hc|].
  destruct Hfit as [Ho Hrest]. apply IH; [apply exec_conserved|]; assumption.
Qed.

Lemma C1_conservation_witness :
  conserved full_db /\
  resizes_fit full_db [OCancel 10 1; OResize 1 7 100 50 (Some 1) false None;
                       ORegister 12 1 20] /\
  conserved (run full_db [OCancel 10 1; OResize 1 7 100 50 (Some 1) false None;
                          ORegister 12 1 20]).
Proof.
  assert (Hfit : resizes_fit full_db [OCancel 10 1; OResize 1 7 100 50 (Some 1) false None;
                                      ORegister 12 1 20])
    by (vm_compute; repeat split; discriminate).
  split; [exact full_db_conserved|]. split; [exact Hfit|].
  apply (C1_conservation_preserved full_db _ full_db_conserved Hfit).
Defined.

(* ------------------------------------------------------------------ *)
(** ** C2: no oversell *)

(** C2: from a store with no negative seat counter, no sequence of
    operations makes a counter negative; and each step that turns a row
    into a confirmed one (route registration, service registration,
    promotion) only does so when the event had a free seat at that moment. *)
Theorem C2_no_oversell db ops :
  seats_nonneg db ->
  seats_nonneg (run db ops) /\
  (forall uid eid now rid db',
     Participant.register_event db uid eid now = (Participant.Registered rid, db') ->
     exists ev, events db !! eid = Some ev /\ 0 < available_seats ev) /\
  (forall uid eid now r db',
     RegistrationService.register_for_event db uid eid now = ((Some r, None), db') ->
     exists ev, events db !! eid = Some ev /\ 0 < available_seats ev) /\
  (forall eid p db',
     WaitlistService.promote_from_waitlist db eid = (Some p, db') ->
     exists ev, events db !! eid = Some ev /\ 0 < available_seats ev).
Proof.
  intros Hn. split; [|split; [|split]].
  - revert db Hn. induction ops as [|o ops IH]; intros db Hn; simpl; [exact Hn|].
    apply IH, exec_nonneg, Hn.
  - intros uid eid now rid db'.
    unfold Participant.register_event, Participant.register_read.
    destruct (events db !! eid) as [ev|] eqn:Hev; [|discriminate].
    destruct (Participant.status_blocks (status ev)); [discriminate|].
    destruct (find_row _ (regs db)) as [[i existing]|].
    + destruct (reg_status_eqb (rstatus existing) Cancelled); [|discriminate].
      destruct (Z.leb_spec (available_seats ev) 0); [discriminate|]. eauto.
    + destruct (now >? registration_deadline ev); [discriminate|].
      destruct (Z.leb_spec (available_seats ev) 0).
      * destruct (allow_waitlist ev); discriminate.
      * eauto.
  - intros uid eid now r db'. unfold RegistrationService.register_for_event.
    destruct (negb _); [discriminate|].
    destruct (events db !! eid) as [ev|]; [|discriminate].
    destruct (now >? registration_deadline ev); [discriminate|].
    destruct (find_row _ (regs db)) as [[i existing]|]; [discriminate|].
    destruct (Z.leb_spec (available_seats ev) 0); [discriminate|]. eauto.
  - intros eid p db' Hp. destruct (promote_effect _ _ _ _ Hp) as (ev & _ & _ & ? & ? & _). eauto.
Qed.

Lemma C2_no_oversell_witness :
  seats_nonneg full_db /\
  seats_nonneg (run full_db [ORegister 12 1 20; OCancel 10 1; OPromote 1]).
Proof.
  split; [exact full_db_nonneg|].
  exact (proj1 (C2_no_oversell full_db [ORegister 12 1 20; OCancel 10 1; OPromote 1]
                  full_db_nonneg)).
Defined.

(* ------------------------------------------------------------------ *)
(** ** C3: FIFO promotion *)

(** Event 1 with capacity 2 and a waitlist; users 20 and 21 take the two
    seats, then A = user 30, B = user 31 and C = user 32 join the waitlist
    at times 10, 11 and 12 (registrations 3, 4 and 5). *)
Definition abc_db : DB :=
  run {| users := [20; 21; 30; 31; 32]; events := {[ 1 := mk_event 2 2 true ]};
         regs := []; next_reg_id := 1 |}
      [ORegister 20 1 1; ORegister 21 1 2;
       ORegister 30 1 10; ORegister 31 1 11; ORegister 32 1 12].

Lemma find_row_insert_same p (rs : list Registration) i r r' :
  find_row p rs = Some (i, r) -> p r' = true -> find_row p (<[i := r']> rs) = Some (i, r').
Proof.
  revert i. induction rs as [|x rs IH]; intros i H Hp'; simpl in H; [discriminate|].
  destruct (p x) eqn:Hpx.
  - injection H as <- <-. simpl. rewrite Hp'. reflexivity.
  - destruct (find_row p rs) as [[k y]|] eqn:Hf; [|discriminate].
    injection H as <- <-. simpl. rewrite Hpx, (IH k eq_refl Hp'). reflexivity.
Qed.

Lemma svc_cancel_confirmed_regs db uid eid i r ev :
  find_row (fun r => (user_id r =? uid) && (event_id r =? eid)) (regs db) = Some (i, r) ->
  attended r = false -> is_confirmed r = true -> events db !! eid = Some ev ->
  regs (snd (RegistrationService.cancel_registration db uid eid)) =
  match oldest_waitlist eid (regs db) with
  | Some (j, w) => delete i (<[j := set_rstatus w Confirmed]> (regs db))
  | None => delete i (regs db)
  end.
Proof.
  intros Hf Ha Hc Hev. unfold RegistrationService.cancel_registration.
  rewrite Hf, Ha, Hc, Hev. destruct (oldest_waitlist eid (regs db)) as [[j w]|]; reflexivity.
Qed.

(** C3: the row a promotion confirms, whether by [promote_from_waitlist]
    (called by the cancel route) or by the promotion inside
    [RegistrationService.cancel_registration], is a waitlist row of the
    event with the least [created_at]; and with waitlist entries A, B, C
    created in that order, the first released seat goes to A and the
    second to B. *)
Theorem C3_fifo_promotion :
  (forall db eid p db',
     WaitlistService.promote_from_waitlist db eid = (Some p, db') ->
     exists i r, regs db !! i = Some r /\ waitlisted_for eid r = true /\
       p = set_rstatus r Confirmed /\ regs db' = <[i := p]> (regs db) /\
       forall j r2, regs db !! j = Some r2 -> waitlisted_for eid r2 = true ->
         created_at r <= created_at r2) /\
  (forall db uid eid i r ev,
     find_row (fun r => (user_id r =? uid) && (event_id r =? eid)) (regs db) = Some (i, r) ->
     attended r = false -> is_confirmed r = true -> events db !! eid = Some ev ->
     (forall j r2, regs db !! j = Some r2 -> waitlisted_for eid r2 = false) \/
     exists j w, regs db !! j = Some w /\ waitlisted_for eid w = true /\
       regs (snd (RegistrationService.cancel_registration db uid eid)) =
         delete i (<[j := set_rstatus w Confirmed]> (regs db)) /\
       forall k r2, regs db !! k = Some r2 -> waitlisted_for eid r2 = true ->
         created_at w <= created_at r2) /\
  (map (status_of abc_db) [3; 4; 5] = [Some Waitlist; Some Waitlist; Some Waitlist] /\
   map (status_of (run abc_db [OCancel 20 1])) [3; 4; 5]
     = [Some Confirmed; Some Waitlist; Some Waitlist] /\
   map (status_of (run abc_db [OCancel 20 1; OCancel 21 2])) [3; 4; 5]
     = [Some Confirmed; Some Confirmed; Some Waitlist] /\
   seats_of (run abc_db [OCancel 20 1; OCancel 21 2]) 1 = Some 0).
Proof.
  split; [|split].
  - intros db eid p db' Hp.
    destruct (promote_effect _ _ _ _ Hp) as (ev & i & r & _ & _ & Ho & -> & Hr & _).
    apply oldest_waitlist_some in Ho as (Hi & Hw & Hmin). exists i, r. auto.
  - intros db uid eid i r ev Hf Ha Hc Hev.
    rewrite (svc_cancel_confirmed_regs db uid eid i r ev Hf Ha Hc Hev).
    destruct (oldest_waitlist eid (regs db)) as [[j w]|] eqn:Ho.
    + apply oldest_waitlist_some in Ho as (Hj & Hw & Hmin). right. exists j, w. auto.
    + left. apply oldest_waitlist_none. exact Ho.
  - vm_compute. repeat split.
Qed.

(** [abc_db] just after the cancel route deleted the row of user 20 and
    released its seat, before the promotion runs. *)
Definition abc_released : DB :=
  set_regs (put_event abc_db 1 (mk_event 2 1 true)) (delete 0%nat (regs abc_db)).

Lemma C3_fifo_witness :
  exists p db', WaitlistService.promote_from_waitlist abc_released 1 = (Some p, db') /\
  exists i r, regs abc_released !! i = Some r /\ waitlisted_for 1 r = true /\
    p = set_rstatus r Confirmed /\ regs db' = <[i := p]> (regs abc_released) /\
    forall j r2, regs abc_released !! j = Some r2 -> waitlisted_for 1 r2 = true ->
      created_at r <= created_at r2.
Proof.
  destruct (WaitlistService.promote_from_waitlist abc_released 1) as [[p|] db'] eqn:Hp.
  - exists p, db'. split; [reflexivity|].
    exact (proj1 C3_fifo_promotion abc_released 1 p db' Hp).
  - vm_compute in Hp. discriminate Hp.
Defined.

(* ------------------------------------------------------------------ *)
(** ** C4: the promotion contract *)

(** C4: [promote_from_waitlist] returns [None] and leaves the store as it
    was when the event is missing, has no free seat, or has no waitlist
    row; otherwise it confirms exactly one waitlist row of the event (the
    rest of the table is untouched), lowers that event's [available_seats]
    by exactly one, and touches no other event. *)
Theorem C4_promote_contract db eid res db' :
  WaitlistService.promote_from_waitlist db eid = (res, db') ->
  ((events db !! eid = None \/
    (exists ev, events db !! eid = Some ev /\ available_seats ev <= 0) \/
    (forall j r, regs db !! j = Some r -> waitlisted_for eid r = false)) ->
   res = None /\ db' = db) /\
  (forall ev, events db !! eid = Some ev -> 0 < available_seats ev ->
   (exists j r, regs db !! j = Some r /\ waitlisted_for eid r = true) ->
   exists i r, regs db !! i = Some r /\ waitlisted_for eid r = true /\
     res = Some (set_rstatus r Confirmed) /\
     regs db' = <[i := set_rstatus r Confirmed]> (regs db) /\
     confirmed_count eid (regs db') = confirmed_count eid (regs db) + 1 /\
     events db' = <[eid := set_available_seats ev (available_seats ev - 1)]> (events db) /\
     users db' = users db /\ next_reg_id db' = next_reg_id db).
Proof.
  intros Hp. split.
  - intros Hcase. destruct res as [p|]; [|split; [reflexivity|exact (promote_none _ _ _ Hp)]].
    exfalso.
    destruct (promote_effect _ _ _ _ Hp) as (ev & i & r & Hev & Hpos & Ho & _).
    apply oldest_waitlist_some in Ho as (Hi & Hw & _).
    destruct Hcase as [Hn|[(ev' & Hev' & Hle)|Hnone]].
    + congruence.
    + rewrite Hev in Hev'. injection Hev' as <-. lia.
    + rewrite (Hnone i r Hi) in Hw. discriminate.
  - intros ev Hev Hpos (j & r0 & Hj & Hw0).
    destruct res as [p|].
    + destruct (promote_effect _ _ _ _ Hp)
        as (ev' & i & r & Hev' & _ & Ho & -> & Hr & He & Hu & Hn).
      rewrite Hev in Hev'. injection Hev' as <-.
      apply oldest_waitlist_some in Ho as (Hi & Hw & _).
      exists i, r. repeat split; auto.
      rewrite Hr, (count_insert eid _ i r _ Hi), (waitlisted_weight eid r eid Hw).
      rewrite <- (waitlisted_event eid r Hw) at 2. rewrite weight_confirmed_self. lia.
    + exfalso. revert Hp.
      unfold WaitlistService.promote_from_waitlist, WaitlistService.atomic_promote.
      rewrite Hev. destruct (Z.leb_spec (available_seats ev) 0); [lia|].
      destruct (oldest_waitlist eid (regs db)) as [[i r]|] eqn:Ho; [discriminate|].
      rewrite (oldest_waitlist_none eid _ Ho j r0 Hj) in Hw0. discriminate.
Qed.

Lemma C4_promote_contract_witness :
  exists res db', WaitlistService.promote_from_waitlist abc_released 1 = (res, db') /\
  exists i r, regs abc_released !! i = Some r /\ waitlisted_for 1 r = true /\
    res = Some (set_rstatus r Confirmed) /\
    regs db' = <[i := set_rstatus r Confirmed]> (regs abc_released) /\
    confirmed_count 1 (regs db') = confirmed_count 1 (regs abc_released) + 1 /\
    events db' = <[1 := set_available_seats (mk_event 2 1 true) 0]> (events abc_released) /\
    users db' = users abc_released /\ next_reg_id db' = next_reg_id abc_released.
Proof.
  destruct (WaitlistService.promote_from_waitlist abc_released 1) as [res db'] eqn:Hp.
  exists res, db'. split; [reflexivity|].
  apply (proj2 (C4_promote_contract abc_released 1 res db' Hp) (mk_event 2 1 true)).
  - vm_compute. reflexivity.
  - vm_compute. reflexivity.
  - exists 1%nat, (mk_reg 3 30 1 Waitlist 10). vm_compute. split; reflexivity.
Defined.

(* ------------------------------------------------------------------ *)
(** ** C5: registering for a full event *)

(** Event 1 with one seat left and a waitlist; users 10 and 11 have no
    registration yet. *)
Definition race_db : DB :=
  {| users := [10; 11]; events := {[ 1 := mk_event 1 1 true ]}; regs := [];
     next_reg_id := 1 |}.

(** C5 (as stated, refuted): two requests read [race_db] before either
    commits; both see a free seat and go for the conditional decrement.
    User 10 commits first; the decrement of user 11 then affects no row and
    the request fails with "just became full" without any waitlist row,
    although the event allows a waitlist. *)
Lemma C5_race_no_waitlist :
  let plan10 := Participant.register_read race_db 10 1 20 in
  let plan11 := Participant.register_read race_db 11 1 20 in
  let db1 := snd (Participant.register_commit 10 1 20 plan10 race_db) in
  allow_waitlist (mk_event 1 1 true) = true /\
  plan11 = Participant.PlanDecrement (mk_event 1 1 true) /\
  Participant.register_commit 11 1 20 plan11 db1 = (Participant.JustBecameFull, db1) /\
  find_row (fun r => user_id r =? 11) (regs db1) = None.
Proof. vm_compute. repeat split. Qed.

(** C5 (amended): a registration request by a user without a row for the
    event, that passes the status gate and the deadline and reads
    [available_seats <= 0], appends a 'waitlist' row and leaves every seat
    counter as it is when the event allows a waitlist, and otherwise fails
    with [EventFull] and changes nothing.  When the request read a free
    seat but the conditional decrement finds none at commit time, it fails
    with [JustBecameFull] and changes nothing, waitlist or not. *)
Theorem C5_register_when_full db uid eid now ev :
  events db !! eid = Some ev ->
  Participant.status_blocks (status ev) = false ->
  find_row (fun r => (user_id r =? uid) && (event_id r =? eid)) (regs db) = None ->
  now <= registration_deadline ev ->
  (available_seats ev <= 0 -> allow_waitlist ev = true ->
     exists r, rstatus r = Waitlist /\ user_id r = uid /\ event_id r = eid /\
       fst (Participant.register_event db uid eid now) = Participant.Waitlisted (reg_id r) /\
       events (snd (Participant.register_event db uid eid now)) = events db /\
       regs (snd (Participant.register_event db uid eid now)) = regs db ++ [r]) /\
  (available_seats ev <= 0 -> allow_waitlist ev = false ->
     Participant.register_event db uid eid now = (Participant.EventFull, db)) /\
  (forall snapshot db2,
     (forall cur, events db2 !! eid = Some cur -> available_seats cur <= 0) ->
     Participant.register_commit uid eid now (Participant.PlanDecrement snapshot) db2
       = (Participant.JustBecameFull, db2)).
Proof.
  intros Hev Hst Hf Hdl.
  assert (Hgt : (now >? registration_deadline ev) = false)
    by (rewrite Z.gtb_ltb; apply Z.ltb_ge; exact Hdl).
  split; [|split].
  - intros Hle Hw. unfold Participant.register_event, Participant.register_read.
    rewrite Hev, Hst, Hf, Hgt, Hw.
    destruct (Z.leb_spec (available_seats ev) 0); [|lia].
    eexists. repeat split; simpl; reflexivity.
  - intros Hle Hw. unfold Participant.register_event, Participant.register_read.
    rewrite Hev, Hst, Hf, Hgt, Hw.
    destruct (Z.leb_spec (available_seats ev) 0); [reflexivity|lia].
  - intros snapshot db2 Hfull. simpl.
    destruct (events db2 !! eid) as [cur|] eqn:Hc; [|reflexivity].
    specialize (Hfull cur eq_refl). rewrite Z.gtb_ltb.
    destruct (Z.ltb_spec 0 (available_seats cur)); [lia|reflexivity].
Qed.

Lemma C5_register_when_full_witness :
  exists r, rstatus r = Waitlist /\ user_id r = 12 /\ event_id r = 1 /\
    fst (Participant.register_event full_db 12 1 20) = Participant.Waitlisted (reg_id r) /\
    events (snd (Participant.register_event full_db 12 1 20)) = events full_db /\
    regs (snd (Participant.register_event full_db 12 1 20)) = regs full_db ++ [r].
Proof.
  apply (C5_register_when_full full_db 12 1 20 (mk_event 2 0 true));
    try (vm_compute; reflexivity); try (vm_compute; discriminate).
Defined.

(* ------------------------------------------------------------------ *)
(** ** C6: the status gate of registration *)

Definition status_at (db : DB) (eid : Z) : option string :=
  match events db !! eid with Some e => Some (status e) | None => None end.

(** C6 (as stated, refuted): the gate reads the current status, and
    [update_event_status] can move a cancelled event back to 'active';
    a registration after that succeeds. *)
Lemma C6_reactivated_event_accepts_registration :
  let db1 := snd (EventStatusService.update_event_status race_db 1 "cancelled" None None 5) in
  let db2 := snd (EventStatusService.update_event_status db1 1 "active" None None 6) in
  status_at db1 1 = Some "cancelled"%string /\
  fst (Participant.register_event db2 10 1 20) = Participant.Registered 1.
Proof. vm_compute. split; reflexivity. Qed.

(** C6 (amended): a registration request made while the event's status
    is 'cancelled' (or 'postponed') fails at the status gate, whatever the
    seat count, and leaves the store unchanged. *)
Theorem C6_status_gate db uid eid now ev :
  events db !! eid = Some ev ->
  (status ev = "cancelled"%string \/ status ev = "postponed"%string) ->
  Participant.register_read db uid eid now = Participant.PlanFail Participant.StatusBlocked /\
  Participant.register_event db uid eid now = (Participant.StatusBlocked, db).
Proof.
  intros Hev Hs.
  assert (Hb : Participant.status_blocks (status ev) = true)
    by (destruct Hs as [-> | ->]; reflexivity).
  unfold Participant.register_event, Participant.register_read.
  rewrite Hev, Hb. split; reflexivity.
Qed.

Lemma C6_status_gate_witness :
  let db1 := snd (EventStatusService.update_event_status race_db 1 "cancelled" None None 5) in
  Participant.register_read db1 10 1 20 = Participant.PlanFail Participant.StatusBlocked /\
  Participant.register_event db1 10 1 20 = (Participant.StatusBlocked, db1).
Proof.
  intros db1.
  apply (C6_status_gate db1 10 1 20
           {| max_participants := 1; available_seats := 1; event_date := 100;
              registration_deadline := 50; is_paid := false; allow_waitlist := true;
              is_active := false; organizer_id := 7; updated_at := 5;
              status := "cancelled"; status_reason := None; postponed_to := None;
              cancelled_at := Some 5 |}).
  - vm_compute. reflexivity.
  - left. reflexivity.
Defined.

(* ------------------------------------------------------------------ *)
(** ** C7: the registration deadline *)

(** Event 1 (deadline 50, one seat free) and an earlier registration of
    user 10 whose row has status 'cancelled'. *)
Definition rereg_db : DB :=
  {| users := [10]; events := {[ 1 := mk_event 2 1 true ]};
     regs := [mk_reg 1 10 1 Cancelled 5]; next_reg_id := 2 |}.

(** C7 (code defect): at time 60, after the deadline 50, the route takes
    the re-registration branch before it checks the deadline: the row
    becomes 'confirmed' and a seat is consumed.  The service path
    [register_for_event] rejects the same request on the deadline. *)
Theorem C7_reregistration_after_deadline :
  let res := Participant.register_event rereg_db 10 1 60 in
  60 > registration_deadline (mk_event 2 1 true) /\
  fst res = Participant.Registered 1 /\
  status_of (snd res) 1 = Some Confirmed /\
  seats_of (snd res) 1 = Some 0 /\
  fst (RegistrationService.register_for_event rereg_db 10 1 60)
    = (None, Some "Registration deadline has passed"%string).
Proof. vm_compute. repeat split. Qed.

(* ------------------------------------------------------------------ *)
(** ** C8: leaving the cancelled state *)

Definition cancelled_db : DB :=
  snd (EventStatusService.update_event_status race_db 1 "cancelled" None None 5).

(** C8 (as stated, refuted): on a cancelled event, [update_event_status]
    with 'active' succeeds and the event is active again. *)
Lemma C8_cancelled_reactivated :
  status_at cancelled_db 1 = Some "cancelled"%string /\
  fst (EventStatusService.update_event_status cancelled_db 1 "active" None None 6) = true /\
  status_at (snd (EventStatusService.update_event_status cancelled_db 1 "active" None None 6)) 1
    = Some "active"%string.
Proof. vm_compute. repeat split. Qed.

(** C8 (amended): [update_event_status] does not look at the current
    status.  On a cancelled event a call succeeds exactly when the new
    status is one of 'active', 'cancelled', 'postponed' (and, for
    'postponed', a date is given), and then the event takes that status;
    a failing call leaves the store unchanged. *)
Theorem C8_status_update_from_cancelled db eid ev s reason pto now ok db' :
  events db !! eid = Some ev ->
  status ev = "cancelled"%string ->
  EventStatusService.update_event_status db eid s reason pto now = (ok, db') ->
  (ok = true <-> EventStatusService.valid_status s = true /\
                 (String.eqb s "postponed" = true -> is_Some pto)) /\
  (ok = false -> db' = db) /\
  (ok = true -> status_at db' eid = Some s).
Proof.
  intros Hev _ Hu. unfold EventStatusService.update_event_status in Hu.
  destruct (EventStatusService.valid_status s) eqn:Hv.
  - assert (Hs : s = "active"%string \/ s = "cancelled"%string \/ s = "postponed"%string).
    { unfold EventStatusService.valid_status in Hv.
      apply orb_prop in Hv as [Hv|Hv]; [apply orb_prop in Hv as [Hv|Hv]|];
        apply String.eqb_eq in Hv; auto. }
    simpl in Hu. rewrite Hev in Hu.
    destruct Hs as [ -> | [ -> | -> ] ]; [| |destruct pto as [d|]]; simpl in Hu;
      injection Hu as <- <-.
    4: { split; [split; [discriminate|intros [_ H]; destruct (H eq_refl); discriminate]|].
         split; [reflexivity|discriminate]. }
    all: split; [split; [intros _; split; [reflexivity|intros H];
                         try discriminate; eexists; reflexivity|reflexivity]|].
    all: split; [discriminate|]; intros _; unfold status_at, put_event; simpl;
         rewrite lookup_insert_eq; reflexivity.
  - simpl in Hu. injection Hu as <- <-. split; [|split; [reflexivity|discriminate]].
    split; [discriminate|]. intros [H _]. discriminate.
Qed.

Lemma C8_status_update_witness :
  (true = true <-> EventStatusService.valid_status "active" = true /\
                 (String.eqb "active" "postponed" = true -> is_Some (@None Z))) /\
  (true = false -> snd (EventStatusService.update_event_status cancelled_db 1 "active" None None 6)
                   = cancelled_db) /\
  (true = true -> status_at (snd (EventStatusService.update_event_status cancelled_db 1 "active" None None 6)) 1
                   = Some "active"%string).
Proof.
  apply (C8_status_update_from_cancelled cancelled_db 1
           {| max_participants := 1; available_seats := 1; event_date := 100;
              registration_deadline := 50; is_paid := false; allow_waitlist := true;
              is_active := false; organizer_id := 7; updated_at := 5;
              status := "cancelled"; status_reason := None; postponed_to := None;
              cancelled_at := Some 5 |} "active" None None 6 true).
  - vm_compute. reflexivity.
  - reflexivity.
  - vm_compute. reflexivity.
Defined.

(* ------------------------------------------------------------------ *)
(** ** C9: postponing an event *)




(* ------------------------------------------------------------------ *)
(** ** C10: attendance marking *)

(** C10: on an existing registration, [mark_attendance] succeeds, leaves
    the events table (hence every seat counter) untouched, and rewrites
    only that row: [attended] becomes true, [attendance_time] is set on the
    first mark, and status, payment status, user and event are kept.  A
    second call succeeds and changes nothing. *)
Theorem C10_mark_attendance db rid now i r :
  find_row (fun r => reg_id r =? rid) (regs db) = Some (i, r) ->
  let res := RegistrationService.mark_attendance db rid now in
  fst (fst res) = true /\
  events (snd res) = events db /\
  (exists r', regs (snd res) = <[i := r']> (regs db) /\
     attended r' = true /\ rstatus r' = rstatus r /\
     payment_status r' = payment_status r /\ reg_id r' = reg_id r /\
     user_id r' = user_id r /\ event_id r' = event_id r /\
     (attended r = false -> attendance_time r' = Some now)) /\
  (attended r = true -> snd res = db) /\
  (forall now', RegistrationService.mark_attendance (snd res) rid now'
                = ((true, "Already marked as attended"%string), snd res)).
Proof.
  intros Hf res. subst res. unfold RegistrationService.mark_attendance.
  rewrite Hf. pose proof (find_row_some _ _ _ _ Hf) as [Hi Hid].
  destruct (attended r) eqn:Ha.
  - simpl. split; [reflexivity|]. split; [reflexivity|].
    split; [|split; [reflexivity|]].
    + exists r. rewrite list_insert_id by exact Hi. repeat split; auto. discriminate.
    + intros now'. rewrite Hf, Ha. reflexivity.
  - simpl. split; [reflexivity|]. split; [reflexivity|]. split; [|split; [discriminate|]].
    + eexists. split; [reflexivity|]. repeat split.
    + intros now'.
      erewrite find_row_insert_same; [reflexivity|exact Hf|exact Hid].
Qed.

Lemma C10_mark_attendance_witness :
  let res := RegistrationService.mark_attendance full_db 2 30 in
  fst (fst res) = true /\
  events (snd res) = events full_db /\
  (exists r', regs (snd res) = <[1%nat := r']> (regs full_db) /\
     attended r' = true /\ rstatus r' = Confirmed /\
     payment_status r' = NotRequired /\ reg_id r' = 2 /\
     user_id r' = 11 /\ event_id r' = 1 /\
     (false = false -> attendance_time r' = Some 30)) /\
  (false = true -> snd res = full_db) /\
  (forall now', RegistrationService.mark_attendance (snd res) 2 now'
                = ((true, "Already marked as attended"%string), snd res)).
Proof.
  exact (C10_mark_attendance full_db 2 30 1%nat (mk_reg 2 11 1 Confirmed 6)
           ltac:(vm_compute; reflexivity)).
Defined.

(* ------------------------------------------------------------------ *)
(** ** Lemmas on the Python string model *)

Module PyFacts.

Lemma digit_char_ok d :
  0 <= d < 10 ->
  Py.is_digit (Py.digit_char d) = true /\ Py.digit_val (Py.digit_char d) = d.
Proof.
  intros Hd.
  assert (d = 0 \/ d = 1 \/ d = 2 \/ d = 3 \/ d = 4 \/ d = 5 \/ d = 6 \/ d = 7
          \/ d = 8 \/ d = 9) as Hc by lia.
  repeat destruct Hc as [->|Hc]; try (subst d); split; reflexivity.
Qed.

Lemma digit_not_special c :
  Py.is_digit c = true ->
  Py.is_space c = false /\ Ascii.eqb c "+" = false /\ Ascii.eqb c "-" = false.
Proof.
  destruct c as [[] [] [] [] [] [] [] []]; vm_compute;
    first [discriminate | intros _; repeat split].
Qed.

Definition starts_digit (s : string) : bool :=
  match s with String c _ => Py.is_digit c | EmptyString => false end.

Fixpoint no_dash (s : string) : bool :=
  match s with String c t => negb (Ascii.eqb c "-") && no_dash t | EmptyString => true end.

Lemma digits_aux_starts f n s :
  starts_digit s = true -> starts_digit (Py.digits_aux f n s) = true.
Proof.
  revert n s. induction f as [|f IH]; intros n s Hs; simpl; [exact Hs|].
  assert (Hd : starts_digit (String (Py.digit_char (n mod 10)) s) = true).
  { simpl. apply digit_char_ok. apply Z.mod_pos_bound. lia. }
  destruct (n <? 10); [exact Hd|]. apply IH. exact Hd.
Qed.

Lemma digits_aux_no_dash f n s :
  no_dash s = true -> no_dash (Py.digits_aux f n s) = true.
Proof.
  revert n s. induction f as [|f IH]; intros n s Hs; simpl; [exact Hs|].
  assert (Hd : no_dash (String (Py.digit_char (n mod 10)) s) = true).
  { simpl. rewrite Hs. destruct (digit_char_ok (n mod 10)) as [Hdig _].
    { apply Z.mod_pos_bound. lia. }
    destruct (digit_not_special _ Hdig) as (_ & _ & ->). reflexivity. }
  destruct (n <? 10); [exact Hd|]. apply IH. exact Hd.
Qed.

Lemma digit_run_digits f n s a :
  0 <= n < 2 ^ Z.of_nat f ->
  exists k, 0 <= k /\ Py.digit_run a (Py.digits_aux f n s) = Py.digit_run (a * 10 ^ k + n) s.
Proof.
  revert n s a. induction f as [|f IH]; intros n s a Hn.
  - simpl in Hn. exists 0. split; [lia|]. simpl. replace n with 0 by lia. f_equal. lia.
  - rewrite Nat2Z.inj_succ, Z.pow_succ_r in Hn by lia.
    assert (Hm : 0 <= n mod 10 < 10) by (apply Z.mod_pos_bound; lia).
    destruct (digit_char_ok _ Hm) as [Hdig Hval].
    simpl. destruct (Z.ltb_spec n 10) as [Hlt|Hge].
    + exists 1. split; [lia|]. simpl. rewrite Hdig, Hval, Z.mod_small by lia. try (f_equal; lia).
    + assert (Hq : 0 <= n / 10 < 2 ^ Z.of_nat f).
      { split; [apply Z.div_pos; lia|]. apply Z.div_lt_upper_bound; lia. }
      destruct (IH (n / 10) (String (Py.digit_char (n mod 10)) s) a Hq) as [k [Hk0 Hk]].
      exists (k + 1). split; [lia|]. rewrite Hk. simpl. rewrite Hdig, Hval. f_equal.
      rewrite Z.pow_add_r by lia. rewrite (Z.div_mod n 10) at 3 by lia. ring.
Qed.

(** [int(str(n)) == n] for [n >= 0]. *)
Lemma int_str n : 0 <= n -> Py.int_ (Py.str_ n) = Some n.
Proof.
  intros Hn. unfold Py.str_.
  replace (n <? 0) with false by (symmetry; apply Z.ltb_ge; lia).
  rewrite Z.abs_eq by lia.
  set (f := S (Z.to_nat (Z.log2 n))).
  assert (Hf : 0 <= n < 2 ^ Z.of_nat f).
  { subst f. rewrite Nat2Z.inj_succ, Z2Nat.id by apply Z.log2_nonneg.
    split; [lia|]. destruct (Z.eq_dec n 0) as [->|Hne]; [reflexivity|].
    apply Z.log2_spec. lia. }
  destruct (digit_run_digits f n EmptyString 0 Hf) as [k [_ Hk]].
  assert (Hs : starts_digit (Py.digits_aux f n EmptyString) = true).
  { subst f. simpl.
    assert (Hd : starts_digit (String (Py.digit_char (n mod 10)) EmptyString) = true).
    { simpl. apply digit_char_ok. apply Z.mod_pos_bound. lia. }
    destruct (n <? 10); [exact Hd|]. apply digits_aux_starts. exact Hd. }
  unfold Py.int_.
  destruct (Py.digits_aux f n EmptyString) as [|c t] eqn:E; [discriminate|].
  simpl in Hs. destruct (digit_not_special c Hs) as (Hsp & Hplus & Hminus).
  cbn -[Py.digit_run]. rewrite Hsp, Hplus, Hminus, Hs, Hk.
  simpl. f_equal. lia.
Qed.

Lemma split_no_dash_app x y :
  no_dash x = true ->
  Py.split_on "-" (x ++ String "-" y) = x :: Py.split_on "-" y.
Proof.
  induction x as [|c x IH]; intros Hx; [reflexivity|].
  simpl in Hx. apply andb_true_iff in Hx as [Hc Hx]. apply negb_true_iff in Hc.
  simpl. rewrite (IH Hx), Hc. reflexivity.
Qed.

Lemma split_no_dash x : no_dash x = true -> Py.split_on "-" x = [x].
Proof.
  induction x as [|c x IH]; intros Hx; [reflexivity|].
  simpl in Hx. apply andb_true_iff in Hx as [Hc Hx]. apply negb_true_iff in Hc.
  simpl. rewrite (IH Hx), Hc. reflexivity.
Qed.

Lemma str_no_dash n : 0 <= n -> no_dash (Py.str_ n) = true.
Proof.
  intros Hn. unfold Py.str_.
  replace (n <? 0) with false by (symmetry; apply Z.ltb_ge; lia).
  apply digits_aux_no_dash. reflexivity.
Qed.

(** The payload of [generate_qr_file] splits into its four fields. *)
Lemma split_generated rid eid uid :
  0 <= rid -> 0 <= uid -> 0 <= eid ->
  Py.split_on "-" (generate_qr_data rid eid uid) =
  ["REG"; Py.str_ rid; Py.str_ uid; Py.str_ eid].
Proof.
  intros Hr Hu He. unfold generate_qr_data.
  change ("REG-" ++ ?x)%string with (String "R" (String "E" (String "G" (String "-" x)))).
  change ("-" ++ ?x)%string with (String "-" x).
  change ("-" ++ ?x)%string with (String "-" x).
  change (Py.split_on "-" (String "R" (String "E" (String "G" (String "-" ?x)))))
    with ("REG" :: Py.split_on "-" x).
  rewrite split_no_dash_app by (apply str_no_dash; exact Hr).
  rewrite split_no_dash_app by (apply str_no_dash; exact Hu).
  rewrite split_no_dash by (apply str_no_dash; exact He).
  reflexivity.
Qed.

End PyFacts.

(* ------------------------------------------------------------------ *)
(** ** QR tickets: generation, verification and the scanner route *)

Lemma find_row_strengthen p q rs i r :
  find_row p rs = Some (i, r) -> (forall x, q x = true -> p x = true) -> q r = true ->
  find_row q rs = Some (i, r).
Proof.
  revert i. induction rs as [|x rs IH]; intros i H Hqp Hqr; simpl in H; [discriminate|].
  simpl. destruct (p x) eqn:Hpx.
  - injection H as <- <-. rewrite Hqr. reflexivity.
  - destruct (find_row p rs) as [[j y]|] eqn:Hf; [|discriminate].
    injection H as <- <-.
    destruct (q x) eqn:Hqx; [rewrite (Hqp x Hqx) in Hpx; discriminate|].
    rewrite (IH j eq_refl Hqp Hqr). reflexivity.
Qed.

Lemma generated_accepted_format rid eid uid :
  (String.eqb (generate_qr_data rid eid uid) ""
   || negb (String.prefix "REG-" (generate_qr_data rid eid uid))) = false.
Proof.
  unfold generate_qr_data.
  change ("REG-" ++ ?x)%string with (String "R" (String "E" (String "G" (String "-" x)))).
  cbn.
  match goal with |- context [String.prefix "" ?x] => destruct x end; reflexivity.
Qed.

Lemma generated_nonempty rid eid uid :
  String.eqb (generate_qr_data rid eid uid) "" = false.
Proof. reflexivity. Qed.

(** [verify_qr_code] on the payload of [generate_qr_file] looks up the row
    with exactly the three encoded ids. *)
Lemma verify_generated db rid eid uid :
  0 <= rid -> 0 <= uid -> 0 <= eid ->
  verify_qr_code db (generate_qr_data rid eid uid) =
  match find_row (fun r => (reg_id r =? rid) && (user_id r =? uid) && (event_id r =? eid))
         (regs db) with
  | None => (None, Some "Registration not found"%string)
  | Some (_, registration) =>
      if reg_status_eqb (rstatus registration) Cancelled then
        (None, Some "This registration has been cancelled"%string)
      else if is_waitlist registration then
        (None, Some "This attendee is on the waitlist, not confirmed"%string)
      else (Some registration, None)
  end.
Proof.
  intros Hr Hu He. unfold verify_qr_code.
  rewrite generated_accepted_format, PyFacts.split_generated by assumption.
  cbv beta iota. rewrite !PyFacts.int_str by assumption. reflexivity.
Qed.

(** X: a ticket QR made by [generate_qr_file] for a registration that is
    neither cancelled nor waitlisted, scanned by the organizer of its event,
    is answered with success and leaves the registration marked attended. *)
Theorem qr_ticket_scan_marks_attendance db organizer now i r ev :
  find_row (fun x => reg_id x =? reg_id r) (regs db) = Some (i, r) ->
  0 <= reg_id r -> 0 <= user_id r -> 0 <= event_id r ->
  rstatus r <> Cancelled -> rstatus r <> Waitlist ->
  events db !! event_id r = Some ev -> organizer_id ev = organizer ->
  exists db',
    Organizer.verify_qr db organizer (generate_qr_data (reg_id r) (event_id r) (user_id r)) now
    = (Organizer.QrOk (reg_id r) (attended r), db') /\
    exists r', regs db' !! i = Some r' /\ reg_id r' = reg_id r /\ attended r' = true.
Proof.
  intros Hf Hr Hu He Hc Hw Hev Horg.
  assert (Hq : find_row (fun x => (reg_id x =? reg_id r) && (user_id x =? user_id r)
                                  && (event_id x =? event_id r)) (regs db) = Some (i, r)).
  { eapply find_row_strengthen; [exact Hf| |].
    - intros x Hx. apply andb_true_iff in Hx as [Hx _].
      apply andb_true_iff in Hx as [Hx _]. exact Hx.
    - rewrite !Z.eqb_refl. reflexivity. }
  pose proof (find_row_some _ _ _ _ Hf) as [Hi Hid].
  unfold Organizer.verify_qr. rewrite generated_nonempty, verify_generated by assumption.
  rewrite Hq.
  replace (reg_status_eqb (rstatus r) Cancelled) with false
    by (destruct (rstatus r) eqn:Hs; simpl; congruence).
  replace (is_waitlist r) with false
    by (unfold is_waitlist; destruct (rstatus r) eqn:Hs; simpl; congruence).
  cbv beta iota. rewrite Hev, Horg, Z.eqb_refl. cbv beta iota. simpl negb. cbv iota.
  unfold RegistrationService.mark_attendance. rewrite Hf.
  destruct (attended r) eqn:Ha.
  - eexists. split; [reflexivity|]. exists r. auto.
  - eexists. split; [reflexivity|]. eexists. split.
    + simpl. apply list_lookup_insert_eq. eapply lookup_lt_Some. exact Hi.
    + split; reflexivity.
Qed.

(** X: the QR that [_generate_qr] makes for a promoted registration never
    passes [verify_qr_code]: the scanner answers 404 and changes nothing. *)
Theorem promoted_qr_rejected db organizer r now :
  Organizer.verify_qr db organizer (promoted_qr_data r) now
  = (Organizer.QrError 404 msg_invalid_format, db).
Proof. reflexivity. Qed.

(** X: whatever the payload, a registration returned by [verify_qr_code]
    is a stored row that is neither cancelled nor waitlisted. *)
Theorem verify_qr_code_sound db qr_data r err :
  verify_qr_code db qr_data = (Some r, err) ->
  err = None /\ (exists i, regs db !! i = Some r) /\
  rstatus r <> Cancelled /\ rstatus r <> Waitlist.
Proof.
  unfold verify_qr_code. intros H.
  destruct (_ || _); [discriminate|].
  destruct (Py.split_on _ _) as [|? [|p1 [|p2 [|p3 [|? ?]]]]]; try discriminate.
  destruct (Py.int_ p1), (Py.int_ p2), (Py.int_ p3); try discriminate.
  destruct (find_row _ _) as [[i x]|] eqn:Hf; [|discriminate].
  apply find_row_some in Hf as [Hi _].
  destruct (reg_status_eqb (rstatus x) Cancelled) eqn:Hc; [discriminate|].
  destruct (is_waitlist x) eqn:Hw; [discriminate|].
  injection H as <- <-. split; [reflexivity|]. split; [eauto|].
  unfold is_waitlist in Hw.
  split; intros Hs; rewrite Hs in *; discriminate.
Qed.

Lemma qr_ticket_scan_witness :
  find_row (fun x => reg_id x =? 1) (regs full_db) = Some (0%nat, mk_reg 1 10 1 Confirmed 5) /\
  exists db',
    Organizer.verify_qr full_db 7 (generate_qr_data 1 1 10) 5
    = (Organizer.QrOk 1 false, db') /\
    exists r', regs db' !! 0%nat = Some r' /\ reg_id r' = 1 /\ attended r' = true.
Proof.
  split; [vm_compute; reflexivity|].
  exact (qr_ticket_scan_marks_attendance full_db 7 5 0%nat (mk_reg 1 10 1 Confirmed 5)
           (mk_event 2 0 true) ltac:(vm_compute; reflexivity) ltac:(simpl; lia)
           ltac:(simpl; lia) ltac:(simpl; lia) ltac:(discriminate) ltac:(discriminate)
           ltac:(vm_compute; reflexivity) eq_refl).
Defined.

Lemma verify_qr_code_sound_witness :
  verify_qr_code full_db "REG-2-11-1" = (Some (mk_reg 2 11 1 Confirmed 6), None) /\
  None = @None string /\ (exists i, regs full_db !! i = Some (mk_reg 2 11 1 Confirmed 6)) /\
  Confirmed <> Cancelled /\ Confirmed <> Waitlist.
Proof.
  split; [vm_compute; reflexivity|].
  exact (verify_qr_code_sound full_db "REG-2-11-1" (mk_reg 2 11 1 Confirmed 6) None
           ltac:(vm_compute; reflexivity)).
Defined.

(* ------------------------------------------------------------------ *)
(** ** Referential integrity: every registration row names a stored event *)

Lemma in_of_lookup (rs : list Registration) i r : rs !! i = Some r -> In r rs.
Proof. intros H. apply list_elem_of_In. eapply list_elem_of_lookup_2. exact H. Qed.

Definition rows_ref (db : DB) : Prop :=
  forall r, In r (regs db) -> is_Some (events db !! event_id r).

(** The event keys of [db] are still keys of [db']. *)
Definition keeps_events (db db' : DB) : Prop :=
  forall k, is_Some (events db !! k) -> is_Some (events db' !! k).

Lemma In_list_insert (rs : list Registration) i x r :
  In r (<[i := x]> rs) -> In r rs \/ r = x.
Proof.
  revert i. induction rs as [|y rs IH]; intros [|i]; simpl; try tauto.
  - intros [->|H]; auto.
  - intros [->|H]; [auto|]. destruct (IH i H); auto.
Qed.

Lemma In_list_delete (rs : list Registration) i r : In r (delete i rs) -> In r rs.
Proof.
  revert i. induction rs as [|y rs IH]; intros [|i]; simpl; try tauto.
  intros [->|H]; [auto|]. right. exact (IH i H).
Qed.

Lemma keeps_put db eid ev : keeps_events db (put_event db eid ev).
Proof.
  intros k Hk. unfold put_event, set_events. simpl.
  apply lookup_insert_is_Some'. auto.
Qed.

Lemma keeps_refl db db' : events db' = events db -> keeps_events db db'.
Proof. intros He k. rewrite He. auto. Qed.

Lemma keeps_trans db1 db2 db3 :
  keeps_events db1 db2 -> keeps_events db2 db3 -> keeps_events db1 db3.
Proof. intros H1 H2 k Hk. auto. Qed.

Lemma rows_ref_same db db' :
  rows_ref db -> keeps_events db db' -> regs db' = regs db -> rows_ref db'.
Proof. intros Hr Hk Hrs r Hin. rewrite Hrs in Hin. auto. Qed.

Lemma rows_ref_insert db db' i r x :
  rows_ref db -> keeps_events db db' -> regs db !! i = Some r ->
  event_id x = event_id r -> regs db' = <[i := x]> (regs db) -> rows_ref db'.
Proof.
  intros Hr Hk Hi Hx Hrs r' Hin. rewrite Hrs in Hin.
  apply In_list_insert in Hin as [Hin| ->]; apply Hk; [auto|].
  rewrite Hx. apply Hr. eapply in_of_lookup. exact Hi.
Qed.

Lemma rows_ref_append db db' x :
  rows_ref db -> keeps_events db db' -> is_Some (events db' !! event_id x) ->
  regs db' = regs db ++ [x] -> rows_ref db'.
Proof.
  intros Hr Hk Hx Hrs r' Hin. rewrite Hrs in Hin.
  apply in_app_or in Hin as [Hin|[<-|[]]]; auto.
Qed.

Lemma rows_ref_delete db db' i :
  rows_ref db -> keeps_events db db' -> regs db' = delete i (regs db) -> rows_ref db'.
Proof.
  intros Hr Hk Hrs r' Hin. rewrite Hrs in Hin. apply In_list_delete in Hin. auto.
Qed.

Lemma rows_ref_promote db eid :
  rows_ref db -> rows_ref (snd (WaitlistService.promote_from_waitlist db eid)).
Proof.
  intros Hr. destruct (WaitlistService.promote_from_waitlist db eid) as [[p|] db'] eqn:Hp;
    simpl.
  - destruct (promote_effect _ _ _ _ Hp)
      as (ev & i & r & Hev & Hpos & Ho & -> & Hrs & He & _).
    apply oldest_waitlist_some in Ho as (Hi & _ & _).
    eapply (rows_ref_insert db db' i r (set_rstatus r Confirmed));
      [exact Hr| |exact Hi|reflexivity|exact Hrs].
    intros k Hk. rewrite He. apply lookup_insert_is_Some'. auto.
  - apply promote_none in Hp. subst db'. exact Hr.
Qed.

(** With integrity, no row refers to a key that is not stored. *)
Lemma rows_ref_count_fresh db k :
  rows_ref db -> events db !! k = None -> confirmed_count k (regs db) = 0.
Proof.
  unfold rows_ref. destruct db as [u ev rs n]. simpl. intros Hr Hk.
  induction rs as [|x rs IH]; [reflexivity|]. simpl.
  rewrite IH by (intros r Hin; apply Hr; right; exact Hin).
  assert (Hx : event_id x <> k).
  { intros <-. destruct (Hr x (or_introl eq_refl)) as [e He]. congruence. }
  unfold confirmed_weight. destruct (Z.eqb_spec (event_id x) k); [congruence|]. reflexivity.
Qed.

(* ------------------------------------------------------------------ *)
(** ** Event administration: delete, toggle, create, statistics *)

Lemma count_filter_other eid eid' rs :
  eid' <> eid ->
  confirmed_count eid' (List.filter (fun r => negb (event_id r =? eid)) rs)
  = confirmed_count eid' rs.
Proof.
  intros Hne. induction rs as [|x rs IH]; [reflexivity|]. simpl.
  destruct (Z.eqb_spec (event_id x) eid) as [Hx|Hx]; simpl.
  - rewrite (weight_other eid eid' x Hx Hne). lia.
  - rewrite IH. reflexivity.
Qed.

(** X: a successful [delete_event] was asked by the owner, removes the event
    and every registration of it, keeps all other registrations, and keeps
    the seat invariants of the remaining events. *)
Theorem delete_event_effect db eid organizer msg db' :
  EventService2.delete_event db eid organizer = ((true, msg), db') ->
  (exists ev, events db !! eid = Some ev /\ organizer_id ev = organizer) /\
  events db' !! eid = None /\
  (forall r, In r (regs db') <-> In r (regs db) /\ event_id r <> eid) /\
  (conserved db -> conserved db') /\
  (seats_nonneg db -> seats_nonneg db').
Proof.
  unfold EventService2.delete_event. intros H.
  destruct (events db !! eid) as [ev|] eqn:Hev; [|discriminate].
  destruct (Z.eqb_spec (organizer_id ev) organizer) as [Ho|Ho]; simpl in H; [|discriminate].
  injection H as <- <-. simpl.
  split; [eauto|]. split; [apply lookup_delete_eq|]. split; [|split].
  - intros r. rewrite filter_In.
    destruct (Z.eqb_spec (event_id r) eid); simpl; intuition congruence.
  - intros Hc e ev0 Hl. simpl in Hl.
    apply lookup_delete_Some in Hl as [Hne Hl].
    simpl. rewrite count_filter_other by congruence. exact (Hc e ev0 Hl).
  - intros Hn e ev0 Hl. simpl in Hl.
    apply lookup_delete_Some in Hl as [_ Hl]. exact (Hn e ev0 Hl).
Qed.

(** X: a refused [delete_event] (unknown event or not the organizer)
    leaves the store unchanged. *)
Theorem delete_event_refused db eid organizer :
  fst (fst (EventService2.delete_event db eid organizer)) = false ->
  snd (EventService2.delete_event db eid organizer) = db.
Proof.
  unfold EventService2.delete_event.
  destruct (events db !! eid) as [ev|]; [|reflexivity].
  destruct (negb _); [reflexivity|]. discriminate.
Qed.

Definition with_updated_at (e : Event) (t : Z) : Event :=
  {| max_participants := max_participants e; available_seats := available_seats e;
     event_date := event_date e; registration_deadline := registration_deadline e;
     is_paid := is_paid e; allow_waitlist := allow_waitlist e;
     is_active := is_active e; organizer_id := organizer_id e;
     updated_at := t; status := status e;
     status_reason := status_reason e; postponed_to := postponed_to e;
     cancelled_at := cancelled_at e |}.

(** X: toggling an event twice gives back the stored event, except for the
    [updated_at] stamp of the second commit. *)
Theorem toggle_twice db eid ev t1 t2 :
  events db !! eid = Some ev ->
  snd (EventService2.toggle_event_status (snd (EventService2.toggle_event_status db eid t1)) eid t2)
  = put_event db eid (with_updated_at ev t2).
Proof.
  intros Hev. unfold EventService2.toggle_event_status. rewrite Hev. simpl.
  rewrite lookup_insert_eq. unfold put_event, set_events. simpl.
  rewrite insert_insert_eq. rewrite negb_involutive. reflexivity.
Qed.

(** X: [toggle_event_status] only flips [is_active], which neither
    registration path reads: after a toggle the participant route and
    [RegistrationService.register_for_event] answer exactly as before. *)
Theorem toggle_keeps_registration_open db eid t uid now :
  fst (Participant.register_event (snd (EventService2.toggle_event_status db eid t)) uid eid now)
  = fst (Participant.register_event db uid eid now) /\
  fst (RegistrationService.register_for_event
         (snd (EventService2.toggle_event_status db eid t)) uid eid now)
  = fst (RegistrationService.register_for_event db uid eid now).
Proof.
  unfold EventService2.toggle_event_status.
  destruct (events db !! eid) as [ev|] eqn:Hev; [|split; reflexivity].
  unfold Participant.register_event, Participant.register_read,
    RegistrationService.register_for_event. simpl.
  rewrite lookup_insert_eq, Hev.
  cbn [status available_seats registration_deadline allow_waitlist is_paid]. split.
  - destruct (Participant.status_blocks (status ev)); [reflexivity|].
    destruct (find_row _ (regs db)) as [[i x]|]; simpl.
    + destruct (reg_status_eqb (rstatus x) Cancelled); [|reflexivity].
      destruct (available_seats ev <=? 0); reflexivity.
    + destruct (now >? registration_deadline ev); [reflexivity|].
      destruct (available_seats ev <=? 0).
      * destruct (allow_waitlist ev); reflexivity.
      * simpl. rewrite lookup_insert_eq. simpl.
        rewrite Hev. destruct (available_seats ev >? 0); reflexivity.
  - destruct (negb _); [reflexivity|].
    destruct (now >? registration_deadline ev); [reflexivity|].
    destruct (find_row _ (regs db)) as [[i x]|]; [reflexivity|].
    destruct (available_seats ev <=? 0); reflexivity.
Qed.

(** X: [create_event] keeps the seat invariants when the key it receives
    is not stored and every registration names a stored event: no
    registration can then count against the new event, which starts with
    [available_seats = max_participants] (non-negativity needs a
    non-negative capacity). *)
Theorem create_event_invariants db new_id organizer d dl max paid waitlist now :
  rows_ref db -> events db !! new_id = None ->
  let '(ev, db') := EventService2.create_event db new_id organizer d dl max paid waitlist now in
  (conserved db -> conserved db') /\
  (0 <= max -> seats_nonneg db -> seats_nonneg db').
Proof.
  intros Hr Hnew. pose proof (rows_ref_count_fresh db new_id Hr Hnew) as H0.
  unfold EventService2.create_event. split.
  - intros Hc. eapply conserved_put; [exact Hc|reflexivity|reflexivity|].
    simpl. rewrite H0. lia.
  - intros Hm Hn. eapply nonneg_put; [exact Hn|reflexivity|exact Hm].
Qed.

Lemma confirmed_count_filter eid rs :
  Z.of_nat (length (List.filter is_confirmed (List.filter (fun r => event_id r =? eid) rs)))
  = confirmed_count eid rs.
Proof.
  induction rs as [|x rs IH]; [reflexivity|]. simpl.
  unfold confirmed_weight.
  destruct (event_id x =? eid); simpl; destruct (is_confirmed x); simpl; lia.
Qed.

Lemma confirmed_waitlist_le (rs : list Registration) :
  (length (List.filter is_confirmed rs) + length (List.filter is_waitlist rs) <= length rs)%nat.
Proof.
  induction rs as [|x rs IH]; [simpl; lia|]. simpl.
  unfold is_confirmed, is_waitlist in *.
  destruct (rstatus x); simpl; lia.
Qed.

(** X: on a store satisfying the conservation invariant, the statistics of
    an event report [confirmed + available_seats = max_participants], and the
    confirmed and waitlisted counts never exceed the registrations. *)
Theorem event_statistics_consistent db eid ev st :
  conserved db -> events db !! eid = Some ev ->
  EventService2.get_event_statistics db eid = Some st ->
  EventService2.confirmed st + EventService2.stats_available st = max_participants ev /\
  EventService2.confirmed st + EventService2.waitlist st <= EventService2.total_registrations st.
Proof.
  intros Hc Hev H. unfold EventService2.get_event_statistics in H. rewrite Hev in H.
  injection H as <-. simpl. split.
  - rewrite confirmed_count_filter. rewrite (Hc eid ev Hev). lia.
  - pose proof (confirmed_waitlist_le (List.filter (fun r => event_id r =? eid) (regs db))).
    lia.
Qed.

(* ------------------------------------------------------------------ *)
(** ** Registration listings *)

#[global] Instance created_le_total : Total RegistrationQueries.created_le.
Proof. intros a b. unfold RegistrationQueries.created_le. lia. Qed.

#[global] Instance created_ge_total : Total RegistrationQueries.created_ge.
Proof. intros a b. unfold RegistrationQueries.created_ge. lia. Qed.

Definition status_matches (status : option string) (r : Registration) : Prop :=
  match status with
  | Some s => s = ""%string \/ RegistrationQueries.status_str (rstatus r) = s
  | None => True
  end.

Lemma status_filter_In status rs r :
  In r (RegistrationQueries.status_filter status rs) <-> In r rs /\ status_matches status r.
Proof.
  unfold RegistrationQueries.status_filter, status_matches.
  destruct status as [s|]; [|tauto].
  destruct (String.eqb_spec s "") as [->|Hs].
  - tauto.
  - rewrite filter_In, String.eqb_eq. intuition congruence.
Qed.

(** X: the organizer's registration list is ordered by [created_at] and
    holds exactly the stored registrations of the event that pass the
    status filter. *)
Theorem event_registrations_sorted db eid status :
  Sorted RegistrationQueries.created_le (RegistrationQueries.get_event_registrations db eid status) /\
  forall r, In r (RegistrationQueries.get_event_registrations db eid status) <->
            In r (regs db) /\ event_id r = eid /\ status_matches status r.
Proof.
  unfold RegistrationQueries.get_event_registrations. split.
  - apply Sorted_merge_sort. apply _.
  - intros r. split.
    + intros Hin. apply (Permutation_in _ (merge_sort_Permutation _ _)) in Hin.
      apply status_filter_In in Hin as [Hin Hs]. apply filter_In in Hin as [Hin He].
      apply Z.eqb_eq in He. auto.
    + intros (Hin & He & Hs). apply (Permutation_in _ (Permutation_sym (merge_sort_Permutation _ _))).
      apply status_filter_In. split; [|exact Hs]. apply filter_In.
      split; [exact Hin|]. apply Z.eqb_eq. exact He.
Qed.

(** X: a participant's registration list is ordered newest first and holds
    exactly the stored registrations of that user that pass the filter. *)
Theorem user_registrations_sorted db uid status :
  Sorted RegistrationQueries.created_ge (RegistrationQueries.get_user_registrations db uid status) /\
  forall r, In r (RegistrationQueries.get_user_registrations db uid status) <->
            In r (regs db) /\ user_id r = uid /\ status_matches status r.
Proof.
  unfold RegistrationQueries.get_user_registrations. split.
  - apply Sorted_merge_sort. apply _.
  - intros r. split.
    + intros Hin. apply (Permutation_in _ (merge_sort_Permutation _ _)) in Hin.
      apply status_filter_In in Hin as [Hin Hs]. apply filter_In in Hin as [Hin He].
      apply Z.eqb_eq in He. auto.
    + intros (Hin & He & Hs). apply (Permutation_in _ (Permutation_sym (merge_sort_Permutation _ _))).
      apply status_filter_In. split; [|exact Hs]. apply filter_In.
      split; [exact Hin|]. apply Z.eqb_eq. exact He.
Qed.

(** X: on a store satisfying the conservation invariant, the attendance page
    ([get_event_registrations(event_id, status='confirmed')]) lists
    [max_participants - available_seats] registrations. *)
Theorem attendance_list_length db eid ev :
  conserved db -> events db !! eid = Some ev ->
  Z.of_nat (length (RegistrationQueries.get_event_registrations db eid (Some "confirmed"%string)))
  = max_participants ev - available_seats ev.
Proof.
  intros Hc Hev. unfold RegistrationQueries.get_event_registrations.
  rewrite (Permutation_length (merge_sort_Permutation _ _)).
  unfold RegistrationQueries.status_filter. simpl.
  rewrite (Hc eid ev Hev), <- confirmed_count_filter.
  assert (Heq : forall rs : list Registration,
    List.filter (fun r => String.eqb (RegistrationQueries.status_str (rstatus r)) "confirmed") rs
    = List.filter is_confirmed rs).
  { induction rs as [|x rs IH]; [reflexivity|]. simpl. rewrite IH.
    unfold is_confirmed. destruct (rstatus x); reflexivity. }
  rewrite Heq. lia.
Qed.

(* ------------------------------------------------------------------ *)
(** ** The polled status of an event *)

(** X: for a participant without a registration, before the deadline, on an
    event whose status does not block registration, [event_status_api]
    reports [is_sold_out = false] exactly when the registration route
    registers the participant. *)
Theorem sold_out_flag_matches_register db uid eid now ev js :
  events db !! eid = Some ev ->
  Participant.status_blocks (status ev) = false ->
  find_row (fun r => (user_id r =? uid) && (event_id r =? eid)) (regs db) = None ->
  now <= registration_deadline ev ->
  ParticipantApi.event_status_api db eid = Some js ->
  (ParticipantApi.is_sold_out js = false <->
   exists rid, fst (Participant.register_event db uid eid now) = Participant.Registered rid).
Proof.
  intros Hev Hs Hf Hd Hjs. unfold ParticipantApi.event_status_api in Hjs. rewrite Hev in Hjs.
  injection Hjs as <-. simpl.
  unfold Participant.register_event, Participant.register_read.
  rewrite Hev, Hs, Hf.
  replace (now >? registration_deadline ev) with false
    by (symmetry; rewrite Z.gtb_ltb; apply Z.ltb_ge; lia).
  destruct (Z.leb_spec (available_seats ev) 0) as [Hle|Hgt].
  - split; [discriminate|]. intros [rid H].
    destruct (allow_waitlist ev); simpl in H; discriminate.
  - split; [|reflexivity]. intros _. simpl. rewrite Hev.
    replace (available_seats ev >? 0) with true
      by (symmetry; rewrite Z.gtb_ltb; apply Z.ltb_lt; lia).
    eexists. reflexivity.
Qed.

(* ------------------------------------------------------------------ *)
(** ** Guards and effects of the request handlers *)


(** X: the cancel route changes the store only when it answers success, and
    it answers success only for the owner of a registration that is not
    attended and whose event exists. *)
Theorem route_cancel_guard db uid rid :
  (fst (Participant.cancel_registration db uid rid) <> Participant.CancelOk ->
   snd (Participant.cancel_registration db uid rid) = db) /\
  (fst (Participant.cancel_registration db uid rid) = Participant.CancelOk ->
   exists i r, find_row (fun r => reg_id r =? rid) (regs db) = Some (i, r) /\
     user_id r = uid /\ attended r = false /\ is_Some (events db !! event_id r)).
Proof.
  unfold Participant.cancel_registration.
  destruct (find_row _ (regs db)) as [[i r]|] eqn:Hf; [|split; [reflexivity|discriminate]].
  destruct (Z.eqb_spec (user_id r) uid) as [Hu|Hu]; simpl;
    [|split; [reflexivity|discriminate]].
  destruct (attended r) eqn:Ha; [split; [reflexivity|discriminate]|].
  destruct (events db !! event_id r) as [ev|] eqn:Hev; [|split; [reflexivity|discriminate]].
  split; [destruct (is_confirmed r); simpl; congruence|].
  intros _. exists i, r. eauto.
Qed.

(** X: [RegistrationService.cancel_registration] changes the store only when
    it reports success, and then the user had an unattended registration for
    the event, which is removed (one row less). *)
Theorem svc_cancel_guard db uid eid :
  let '((ok, _), db') := RegistrationService.cancel_registration db uid eid in
  (ok = false -> db' = db) /\
  (ok = true ->
   exists i r, find_row (fun r => (user_id r =? uid) && (event_id r =? eid)) (regs db)
               = Some (i, r) /\ attended r = false /\
               length (regs db') = (length (regs db) - 1)%nat).
Proof.
  unfold RegistrationService.cancel_registration.
  destruct (find_row _ (regs db)) as [[i r]|] eqn:Hf; [|split; [reflexivity|discriminate]].
  pose proof (find_row_some _ _ _ _ Hf) as [Hi _].
  destruct (attended r) eqn:Ha; [split; [reflexivity|discriminate]|].
  assert (Hlen : forall rs : list Registration, length rs = length (regs db) ->
                 length (delete i rs) = (length (regs db) - 1)%nat).
  { intros rs Hrs. rewrite length_delete; [lia|].
    apply lookup_lt_is_Some. rewrite Hrs. eapply lookup_lt_Some. exact Hi. }
  destruct (events db !! eid) as [ev|].
  - destruct (is_confirmed r).
    + destruct (oldest_waitlist eid (regs db)) as [[j w]|]; simpl;
        (split; [discriminate|]); intros _; exists i, r; (split; [reflexivity|]);
        (split; [exact Ha|]); apply Hlen; try apply length_insert; reflexivity.
    + simpl. split; [discriminate|]. intros _. exists i, r. eauto.
  - destruct (is_confirmed r); simpl.
    + split; [reflexivity|discriminate].
    + split; [discriminate|]. intros _. exists i, r. eauto.
Qed.

Lemma sync_keeps fs db eid st t :
  let db' := EventStatusService.sync_to_firebase_and_log fs db eid st t in
  regs db' = regs db /\ keeps_events db db' /\
  (conserved db -> conserved db') /\ (seats_nonneg db -> seats_nonneg db').
Proof.
  destruct fs; simpl; [repeat split; auto; intros k Hk; exact Hk|].
  unfold EventStatusService.sqlite_update_event_status.
  destruct (events db !! eid) as [ev|] eqn:Hev; [|repeat split; auto; intros k Hk; exact Hk].
  destruct (Bool.eqb _ _); [repeat split; auto; intros k Hk; exact Hk|].
  split; [reflexivity|]. split; [|split].
  - intros k Hk. unfold put_event. simpl. apply lookup_insert_is_Some'. right. exact Hk.
  - intros Hc. eapply conserved_put; [exact Hc|reflexivity|reflexivity|].
    simpl. exact (Hc eid ev Hev).
  - intros Hn. eapply nonneg_put; [exact Hn|reflexivity|]. exact (Hn eid ev Hev).
Qed.

Lemma status_update_request_keeps_seats db eid s reason pto now :
  let '(ok, db') := EventStatusService.update_event_status db eid s reason pto now in
  regs db' = regs db /\ (ok = false -> db' = db) /\
  (conserved db -> conserved db') /\ (seats_nonneg db -> seats_nonneg db').
Proof.
  unfold EventStatusService.update_event_status.
  destruct (negb (EventStatusService.valid_status s)); [repeat split; auto|].
  destruct (events db !! eid) as [ev|] eqn:Hev; [|repeat split; auto].
  destruct (_ && _); [repeat split; auto|].
  destruct (if String.eqb s "cancelled" then _ else _) as [[[act cat] pto'] edate].
  split; [reflexivity|]. split; [discriminate|]. split.
  - intros Hc. eapply conserved_put; [exact Hc|reflexivity|reflexivity|].
    simpl. exact (Hc eid ev Hev).
  - intros Hn. eapply nonneg_put; [exact Hn|reflexivity|]. exact (Hn eid ev Hev).
Qed.

(** X: [update_event_status], together with the background sync it starts
    (whichever way the Firestore write turns out), never touches
    registrations, seat counts or capacities: it keeps both seat
    invariants, and a refused update leaves the store unchanged. *)
Theorem status_update_keeps_seats fs db eid s reason pto now t :
  let '(ok, db') :=
    EventStatusService.update_event_status_then_sync fs db eid s reason pto now t in
  regs db' = regs db /\ (ok = false -> db' = db) /\
  (conserved db -> conserved db') /\ (seats_nonneg db -> seats_nonneg db').
Proof.
  unfold EventStatusService.update_event_status_then_sync.
  pose proof (status_update_request_keeps_seats db eid s reason pto now) as Hreq.
  destruct (EventStatusService.update_event_status db eid s reason pto now) as [ok db1].
  destruct Hreq as (Hr1 & Hf1 & Hc1 & Hn1).
  destruct ok; [|repeat split; auto].
  destruct (sync_keeps fs db1 eid s t) as (Hr2 & _ & Hc2 & Hn2).
  split; [congruence|]. split; [discriminate|]. split; auto.
Qed.

(** X: [EventService.update_event] writes only the requested event, only
    for its organizer; otherwise the store is unchanged.  Registrations are
    never touched. *)
Theorem update_event_owner_only db eid org d dl m p w :
  let '(res, db') := EventService.update_event db eid org d dl m p w in
  regs db' = regs db /\
  match res with
  | None => db' = db
  | Some ev' => (exists ev, events db !! eid = Some ev /\ organizer_id ev = org) /\
                events db' = <[eid := ev']> (events db)
  end.
Proof.
  unfold EventService.update_event.
  destruct (events db !! eid) as [ev|] eqn:Hev; [|split; reflexivity].
  destruct (Z.eqb_spec (organizer_id ev) org) as [Ho|Ho]; simpl; [|split; reflexivity].
  destruct (EventService.truthy m) as [n|]; [destruct (negb _)|]; simpl;
    (split; [reflexivity|]); (split; [eauto|reflexivity]).
Qed.

(** X: [RegistrationService.register_for_event] either refuses with a
    message and leaves the store unchanged, or appends one confirmed row for
    the user and event with the next key and takes one seat of an event that
    had a free seat. *)
Theorem svc_register_effect db uid eid now :
  let '((res, err), db') := RegistrationService.register_for_event db uid eid now in
  match res with
  | None => db' = db /\ is_Some err
  | Some r =>
      err = None /\ regs db' = regs db ++ [r] /\ rstatus r = Confirmed /\
      user_id r = uid /\ event_id r = eid /\ reg_id r = next_reg_id db /\
      exists ev, events db !! eid = Some ev /\ 0 < available_seats ev /\
        events db' !! eid = Some (set_available_seats ev (available_seats ev - 1))
  end.
Proof.
  unfold RegistrationService.register_for_event.
  destruct (negb _); [split; [reflexivity|eexists; reflexivity]|].
  destruct (events db !! eid) as [ev|] eqn:Hev; [|split; [reflexivity|eexists; reflexivity]].
  destruct (now >? registration_deadline ev); [split; [reflexivity|eexists; reflexivity]|].
  destruct (find_row _ (regs db)) as [[i x]|]; [split; [reflexivity|eexists; reflexivity]|].
  destruct (Z.leb_spec (available_seats ev) 0) as [Hle|Hgt];
    [split; [reflexivity|eexists; reflexivity]|].
  simpl. repeat split. exists ev. split; [reflexivity|]. split; [lia|].
  apply lookup_insert_eq.
Qed.

(** X: the registration route changes the store only when it registers or
    waitlists; a registration leaves a confirmed row of the user for the
    event, and a waitlisting appends one waitlist row and does not touch any
    event. *)
Theorem route_register_effect db uid eid now :
  let '(o, db') := Participant.register_event db uid eid now in
  match o with
  | Participant.Registered rid =>
      exists r, In r (regs db') /\ rstatus r = Confirmed /\ reg_id r = rid /\
                user_id r = uid /\ event_id r = eid
  | Participant.Waitlisted rid =>
      events db' = events db /\
      exists r, regs db' = regs db ++ [r] /\ rstatus r = Waitlist /\ reg_id r = rid /\
                user_id r = uid /\ event_id r = eid
  | _ => db' = db
  end.
Proof.
  unfold Participant.register_event, Participant.register_read.
  destruct (events db !! eid) as [ev|] eqn:Hev; [|reflexivity].
  destruct (Participant.status_blocks (status ev)); [reflexivity|].
  destruct (find_row _ (regs db)) as [[i x]|] eqn:Hf.
  - destruct (reg_status_eqb (rstatus x) Cancelled); [|reflexivity].
    destruct (available_seats ev <=? 0); [reflexivity|].
    pose proof (find_row_some _ _ _ _ Hf) as [Hi Hp].
    apply andb_true_iff in Hp as [Hu He]. apply Z.eqb_eq in Hu, He.
    simpl. eexists. split.
    + eapply in_of_lookup. apply list_lookup_insert_eq. eapply lookup_lt_Some. exact Hi.
    + simpl. auto.
  - destruct (now >? registration_deadline ev); [reflexivity|].
    destruct (available_seats ev <=? 0).
    + destruct (allow_waitlist ev); [|reflexivity].
      simpl. split; [reflexivity|]. eexists. split; [reflexivity|]. auto.
    + simpl. rewrite Hev. destruct (available_seats ev >? 0); [|reflexivity].
      simpl. eexists. split; [apply in_or_app; right; left; reflexivity|]. auto.
Qed.

(* ------------------------------------------------------------------ *)
(** ** Every write keeps referential integrity *)

Ltac keeps_tac :=
  let k := fresh "k" in let Hk := fresh "Hk" in
  intros k Hk; simpl;
  repeat (apply lookup_insert_is_Some'; right); exact Hk.

Lemma rows_ref_route_register db uid eid now :
  rows_ref db -> rows_ref (snd (Participant.register_event db uid eid now)).
Proof.
  intros Hr. unfold Participant.register_event, Participant.register_read.
  destruct (events db !! eid) as [ev|] eqn:Hev; [|exact Hr].
  destruct (Participant.status_blocks (status ev)); [exact Hr|].
  destruct (find_row _ (regs db)) as [[i x]|] eqn:Hf.
  - destruct (reg_status_eqb (rstatus x) Cancelled); [|exact Hr].
    destruct (available_seats ev <=? 0); [exact Hr|].
    apply find_row_some in Hf as [Hi _]. simpl.
    eapply (rows_ref_insert _ _ i x); [exact Hr| |exact Hi| |reflexivity];
      [keeps_tac|reflexivity].
  - destruct (now >? registration_deadline ev); [exact Hr|].
    destruct (available_seats ev <=? 0).
    + destruct (allow_waitlist ev); [|exact Hr]. simpl.
      eapply rows_ref_append; [exact Hr|keeps_tac| |reflexivity].
      simpl. rewrite Hev. eexists; reflexivity.
    + simpl. rewrite Hev. destruct (available_seats ev >? 0); [|exact Hr]. simpl.
      eapply rows_ref_append; [exact Hr|keeps_tac| |reflexivity].
      simpl. rewrite lookup_insert_eq. eexists; reflexivity.
Qed.

Lemma rows_ref_svc_register db uid eid now :
  rows_ref db -> rows_ref (snd (RegistrationService.register_for_event db uid eid now)).
Proof.
  intros Hr. unfold RegistrationService.register_for_event.
  destruct (negb _); [exact Hr|].
  destruct (events db !! eid) as [ev|] eqn:Hev; [|exact Hr].
  destruct (now >? registration_deadline ev); [exact Hr|].
  destruct (find_row _ (regs db)) as [[i x]|]; [exact Hr|].
  destruct (available_seats ev <=? 0); [exact Hr|]. simpl.
  eapply rows_ref_append; [exact Hr|keeps_tac| |reflexivity].
  simpl. rewrite lookup_insert_eq. eexists; reflexivity.
Qed.

Lemma rows_ref_route_cancel db uid rid :
  rows_ref db -> rows_ref (snd (Participant.cancel_registration db uid rid)).
Proof.
  intros Hr. unfold Participant.cancel_registration.
  destruct (find_row _ (regs db)) as [[i r]|]; [|exact Hr].
  destruct (negb _); [exact Hr|]. destruct (attended r); [exact Hr|].
  destruct (events db !! event_id r) as [ev|]; [|exact Hr].
  destruct (is_confirmed r); simpl.
  - apply rows_ref_promote.
    eapply rows_ref_delete; [exact Hr|keeps_tac|reflexivity].
  - eapply rows_ref_delete; [exact Hr|keeps_tac|reflexivity].
Qed.

Lemma rows_ref_svc_cancel db uid eid :
  rows_ref db -> rows_ref (snd (RegistrationService.cancel_registration db uid eid)).
Proof.
  intros Hr. unfold RegistrationService.cancel_registration.
  destruct (find_row _ (regs db)) as [[i r]|]; [|exact Hr].
  destruct (attended r); [exact Hr|].
  destruct (events db !! eid) as [ev|]; destruct (is_confirmed r); simpl;
    try exact Hr; try (eapply rows_ref_delete; [exact Hr|keeps_tac|reflexivity]).
  destruct (oldest_waitlist eid (regs db)) as [[j w]|] eqn:Ho; simpl.
  - apply oldest_waitlist_some in Ho as (Hj & _ & _).
    set (mid := set_regs db (<[j := set_rstatus w Confirmed]> (regs db))).
    assert (Hmid : rows_ref mid).
    { eapply (rows_ref_insert _ _ j w (set_rstatus w Confirmed)); [exact Hr|keeps_tac|exact Hj|reflexivity|reflexivity]. }
    eapply (rows_ref_delete mid); [exact Hmid|keeps_tac|reflexivity].
  - eapply rows_ref_delete; [exact Hr|keeps_tac|reflexivity].
Qed.

Lemma rows_ref_update_event db eid org d dl m p w :
  rows_ref db -> rows_ref (snd (EventService.update_event db eid org d dl m p w)).
Proof.
  intros Hr. unfold EventService.update_event.
  destruct (events db !! eid) as [ev|]; [|exact Hr].
  destruct (negb _); [exact Hr|].
  destruct (EventService.truthy m) as [n|]; [destruct (negb _)|]; simpl;
    (eapply rows_ref_same; [exact Hr|keeps_tac|reflexivity]).
Qed.

Lemma rows_ref_mark_attendance db rid now :
  rows_ref db -> rows_ref (snd (RegistrationService.mark_attendance db rid now)).
Proof.
  intros Hr. unfold RegistrationService.mark_attendance.
  destruct (find_row _ (regs db)) as [[i r]|] eqn:Hf; [|exact Hr].
  destruct (attended r); [exact Hr|]. apply find_row_some in Hf as [Hi _]. simpl.
  eapply (rows_ref_insert _ _ i r); [exact Hr|keeps_tac|exact Hi| |reflexivity];
    reflexivity.
Qed.

Lemma rows_ref_exec db o : rows_ref db -> rows_ref (exec db o).
Proof.
  destruct o; simpl.
  - apply rows_ref_route_register.
  - apply rows_ref_svc_register.
  - apply rows_ref_route_cancel.
  - apply rows_ref_svc_cancel.
  - apply rows_ref_promote.
  - apply rows_ref_update_event.
  - apply rows_ref_mark_attendance.
Qed.

(** X: every registration row names a stored event, and every write keeps
    it so: any sequence of registrations, cancellations, promotions, event
    edits and attendance marks, and also [delete_event] (which deletes the
    event's registrations first), [create_event], [toggle_event_status] and
    [update_event_status] with its background sync. *)
Theorem rows_ref_preserved db :
  rows_ref db ->
  (forall ops, rows_ref (run db ops)) /\
  (forall eid org, rows_ref (snd (EventService2.delete_event db eid org))) /\
  (forall k org d dl mx p w now,
     rows_ref (snd (EventService2.create_event db k org d dl mx p w now))) /\
  (forall eid now, rows_ref (snd (EventService2.toggle_event_status db eid now))) /\
  (forall fs eid s reason pto now t,
     rows_ref (snd (EventStatusService.update_event_status_then_sync fs db eid s reason pto now t))).
Proof.
  intros Hr. split; [|split; [|split; [|split]]].
  - intros ops. revert db Hr. induction ops as [|o ops IH]; intros db Hr; simpl; [exact Hr|].
    apply IH. apply rows_ref_exec. exact Hr.
  - intros eid org. unfold EventService2.delete_event.
    destruct (events db !! eid) as [ev|]; [|exact Hr].
    destruct (negb _); [exact Hr|]. simpl.
    intros r Hin. simpl in Hin. apply filter_In in Hin as [Hin Hne].
    simpl. rewrite lookup_delete_ne.
    + exact (Hr r Hin).
    + intros He. rewrite He, Z.eqb_refl in Hne. discriminate.
  - intros k org d dl mx p w now. unfold EventService2.create_event. simpl.
    eapply rows_ref_same; [exact Hr|keeps_tac|reflexivity].
  - intros eid now. unfold EventService2.toggle_event_status.
    destruct (events db !! eid) as [ev|]; [|exact Hr]. simpl.
    eapply rows_ref_same; [exact Hr|keeps_tac|reflexivity].
  - intros fs eid s reason pto now t.
    assert (Hreq : rows_ref (snd (EventStatusService.update_event_status db eid s reason pto now))).
    { unfold EventStatusService.update_event_status.
      destruct (negb _); [exact Hr|].
      destruct (events db !! eid) as [ev|]; [|exact Hr].
      destruct (_ && _); [exact Hr|].
      destruct (if String.eqb s "cancelled" then _ else _) as [[[act cat] pto'] edate]. simpl.
      eapply rows_ref_same; [exact Hr|keeps_tac|reflexivity]. }
    unfold EventStatusService.update_event_status_then_sync.
    destruct (EventStatusService.update_event_status db eid s reason pto now) as [ok db1].
    simpl in Hreq. destruct ok; [|exact Hreq]. simpl.
    destruct (sync_keeps fs db1 eid s t) as (Hr2 & Hk2 & _).
    eapply rows_ref_same; [exact Hreq|exact Hk2|exact Hr2].
Qed.

(* ------------------------------------------------------------------ *)
(** ** Instances of the handler properties on a concrete store *)

Lemma delete_event_effect_witness :
  let db' := snd (EventService2.delete_event full_db 1 7) in
  (exists ev, events full_db !! 1 = Some ev /\ organizer_id ev = 7) /\
  events db' !! 1 = None /\
  (forall r, In r (regs db') <-> In r (regs full_db) /\ event_id r <> 1) /\
  (conserved full_db -> conserved db') /\
  (seats_nonneg full_db -> seats_nonneg db').
Proof.
  exact (delete_event_effect full_db 1 7 "Event deleted successfully"%string
           (snd (EventService2.delete_event full_db 1 7)) ltac:(vm_compute; reflexivity)).
Defined.

Lemma delete_event_refused_witness :
  snd (EventService2.delete_event full_db 1 8) = full_db.
Proof.
  exact (delete_event_refused full_db 1 8 ltac:(vm_compute; reflexivity)).
Defined.

Lemma toggle_twice_witness :
  snd (EventService2.toggle_event_status
         (snd (EventService2.toggle_event_status full_db 1 20)) 1 21)
  = put_event full_db 1 (with_updated_at (mk_event 2 0 true) 21).
Proof.
  exact (toggle_twice full_db 1 (mk_event 2 0 true) 20 21 ltac:(vm_compute; reflexivity)).
Defined.

Lemma full_db_rows_ref : rows_ref full_db.
Proof.
  intros r Hin. simpl in Hin.
  destruct Hin as [<-|[<-|[]]]; vm_compute; eexists; reflexivity.
Qed.

Lemma create_event_invariants_witness :
  let '(ev, db') := EventService2.create_event full_db 2 7 200 150 30 false true 40 in
  (conserved full_db -> conserved db') /\
  (0 <= 30 -> seats_nonneg full_db -> seats_nonneg db').
Proof.
  exact (create_event_invariants full_db 2 7 200 150 30 false true 40
           full_db_rows_ref ltac:(vm_compute; reflexivity)).
Defined.

Lemma event_statistics_consistent_witness :
  EventService2.confirmed (EventService2.mkEventStats 2 2 0 0 0)
  + EventService2.stats_available (EventService2.mkEventStats 2 2 0 0 0)
  = max_participants (mk_event 2 0 true) /\
  EventService2.confirmed (EventService2.mkEventStats 2 2 0 0 0)
  + EventService2.waitlist (EventService2.mkEventStats 2 2 0 0 0)
  <= EventService2.total_registrations (EventService2.mkEventStats 2 2 0 0 0).
Proof.
  exact (event_statistics_consistent full_db 1 (mk_event 2 0 true)
           (EventService2.mkEventStats 2 2 0 0 0) full_db_conserved
           ltac:(vm_compute; reflexivity) ltac:(vm_compute; reflexivity)).
Defined.

Lemma attendance_list_length_witness :
  Z.of_nat (length (RegistrationQueries.get_event_registrations full_db 1 (Some "confirmed"%string)))
  = max_participants (mk_event 2 0 true) - available_seats (mk_event 2 0 true).
Proof.
  exact (attendance_list_length full_db 1 (mk_event 2 0 true) full_db_conserved
           ltac:(vm_compute; reflexivity)).
Defined.

Lemma sold_out_flag_matches_register_witness :
  ParticipantApi.is_sold_out (ParticipantApi.mkStatusJson 1 0 2 true "active" "" None) = false <->
  exists rid, fst (Participant.register_event full_db 12 1 10) = Participant.Registered rid.
Proof.
  exact (sold_out_flag_matches_register full_db 12 1 10 (mk_event 2 0 true)
           (ParticipantApi.mkStatusJson 1 0 2 true "active" "" None)
           ltac:(vm_compute; reflexivity) ltac:(vm_compute; reflexivity)
           ltac:(vm_compute; reflexivity) ltac:(simpl; lia) ltac:(vm_compute; reflexivity)).
Defined.

Lemma rows_ref_preserved_witness :
  (forall ops, rows_ref (run full_db ops)) /\
  (forall eid org, rows_ref (snd (EventService2.delete_event full_db eid org))) /\
  (forall k org d dl mx p w now,
     rows_ref (snd (EventService2.create_event full_db k org d dl mx p w now))) /\
  (forall eid now, rows_ref (snd (EventService2.toggle_event_status full_db eid now))) /\
  (forall fs eid s reason pto now t,
     rows_ref (snd (EventStatusService.update_event_status_then_sync fs full_db eid s reason pto now t))).
Proof.
  exact (rows_ref_preserved full_db full_db_rows_ref).
Defined.
